(** * corpus.space/esi: the shared request/response pipeline

    A shallow embedding of the Go package [esi] (fleets.go, time_marshal.go,
    characters.go) together with the parts of the Go standard library the
    package calls ([strconv.Atoi], [http.Header], [encoding/json],
    [net/url], [time]).

    Conventions.
    - Go [string] and [[]byte] are [string] (a sequence of 8-bit [ascii]).
    - Go [int]/[int64] are [Z]; wrap-around is written out with [wrap64].
    - the package-level clock [now] is an explicit argument.
    - a Go [error] is a value of the inductive [error]; [nil] is [None].
    - a run-time panic is a constructor of the result type. *)

From Stdlib Require Import ZArith QArith Qabs Qpower Lia Lqa Bool List Ascii String.
From stdpp Require Import base option gmap strings.

Local Open Scope string_scope.
Local Open Scope Z_scope.

(** ** Bytes and machine integers *)

Definition byte_val (c : ascii) : Z := Z.of_N (N_of_ascii c).

Definition is_digit (c : ascii) : bool :=
  (48 <=? byte_val c) && (byte_val c <=? 57).

Definition digit_val (c : ascii) : Z := byte_val c - 48.

Definition is_upper (c : ascii) : bool :=
  (65 <=? byte_val c) && (byte_val c <=? 90).

Definition is_lower (c : ascii) : bool :=
  (97 <=? byte_val c) && (byte_val c <=? 122).

Definition is_letter (c : ascii) : bool := is_upper c || is_lower c.

Definition byte_of_Z (n : Z) : ascii := ascii_of_N (Z.to_N n).

Definition to_lower (c : ascii) : ascii :=
  if is_upper c then byte_of_Z (byte_val c + 32) else c.

Definition to_upper (c : ascii) : ascii :=
  if is_lower c then byte_of_Z (byte_val c - 32) else c.

Definition MaxInt64 : Z := 9223372036854775807.
Definition MinInt64 : Z := -9223372036854775808.
Definition MaxUint64 : Z := 18446744073709551615.

(** Two's-complement wrap-around of a 64-bit signed result. *)
Definition wrap64 (n : Z) : Z := (n + 2 ^ 63) mod 2 ^ 64 - 2 ^ 63.

Definition in_int64 (n : Z) : bool := (MinInt64 <=? n) && (n <=? MaxInt64).

Fixpoint string_map (f : ascii -> ascii) (s : string) : string :=
  match s with
  | EmptyString => EmptyString
  | String c r => String (f c) (string_map f r)
  end.

Fixpoint string_forallb (p : ascii -> bool) (s : string) : bool :=
  match s with
  | EmptyString => true
  | String c r => p c && string_forallb p r
  end.

Definition slen (s : string) : Z := Z.of_nat (String.length s).

(** [p] holds of the [count] integers from [start] on. *)
Fixpoint Z_all_from (p : Z -> bool) (start : Z) (count : nat) : bool :=
  match count with
  | O => true
  | S k => p start && Z_all_from p (start + 1) k
  end.

(** ** strconv *)

Module strconv.

Inductive NumError := ErrSyntax | ErrRange.

(** The digit loop of [strconv.ParseUint(s, 10, 64)]: the first offending
    byte decides between a syntax and a range error. *)
Fixpoint ParseUint_loop (s : string) (n : Z) : Z * option NumError :=
  match s with
  | EmptyString => (n, None)
  | String c r =>
      if is_digit c then
        if 1844674407370955162 <=? n then (MaxUint64, Some ErrRange)
        else
          let n1 := n * 10 + digit_val c in
          if MaxUint64 <? n1 then (MaxUint64, Some ErrRange)
          else ParseUint_loop r n1
      else (0, Some ErrSyntax)
  end.

Definition ParseUint (s : string) : Z * option NumError :=
  match s with
  | EmptyString => (0, Some ErrSyntax)
  | _ => ParseUint_loop s 0
  end.

(** [strconv.ParseInt(s, 10, 64)]. *)
Definition ParseInt (s : string) : Z * option NumError :=
  match s with
  | EmptyString => (0, Some ErrSyntax)
  | String c r =>
      let neg := Ascii.eqb c "-" in
      let body := if neg || Ascii.eqb c "+" then r else s in
      match ParseUint body with
      | (_, Some ErrSyntax) => (0, Some ErrSyntax)
      | (un, _) =>
          if negb neg && (2 ^ 63 <=? un) then (MaxInt64, Some ErrRange)
          else if neg && (2 ^ 63 <? un) then (MinInt64, Some ErrRange)
          else (if neg then - un else un, None)
      end
  end.

(** [strconv.Atoi] on a 64-bit platform; its fast path for short inputs
    computes the same result as [ParseInt]. *)
Definition Atoi (s : string) : Z * option NumError := ParseInt s.

(** Decimal rendering of a non-negative number, least digit last. *)
Fixpoint utoa_fuel (fuel : nat) (n : Z) (acc : string) : string :=
  match fuel with
  | O => acc
  | S f =>
      let acc' := String (byte_of_Z (48 + n mod 10)) acc in
      if n <? 10 then acc' else utoa_fuel f (n / 10) acc'
  end.

Definition utoa (n : Z) : string := utoa_fuel (S (Z.to_nat (Z.log2 n))) n "".

(** [strconv.Itoa] (also [%d] of [fmt]). *)
Definition Itoa (n : Z) : string :=
  if n <? 0 then String "-" (utoa (- n)) else utoa n.

End strconv.

(** ** net/url *)

Module url.

(** [url.URL]. [Path] holds the path in its escaped form (what
    [EscapedPath] returns); [User] the raw userinfo, when there is one. *)
Record URL := mkURL {
  Scheme : string;
  Opaque : string;
  User : option string;
  Host : string;
  Path : string;
  ForceQuery : bool;
  RawQuery : string;
  Fragment : string
}.

Definition empty : URL := mkURL "" "" None "" "" false "" "".

(** [strings.Cut(s, sep)] for a one-byte separator. *)
Fixpoint cut (sep : ascii) (s : string) : string * string * bool :=
  match s with
  | EmptyString => ("", "", false)
  | String c r =>
      if Ascii.eqb c sep then ("", r, true)
      else let '(a, b, found) := cut sep r in (String c a, b, found)
  end.

Fixpoint contains (c : ascii) (s : string) : bool :=
  match s with
  | EmptyString => false
  | String c' r => Ascii.eqb c' c || contains c r
  end.

Definition has_prefix (p s : string) : bool := String.prefix p s.

Definition is_ctl (c : ascii) : bool :=
  (byte_val c <? 32) || (byte_val c =? 127).

(** [getScheme]: [None] is the error "missing protocol scheme". *)
Fixpoint getScheme_loop (first : bool) (s : string) (whole : string)
  : option (string * string) :=
  match s with
  | EmptyString => Some ("", whole)
  | String c r =>
      if is_letter c then
        match getScheme_loop false r whole with
        | Some (EmptyString, _) => Some ("", whole)
        | Some (sch, rest) => Some (String c sch, rest)
        | None => None
        end
      else if is_digit c || Ascii.eqb c "+" || Ascii.eqb c "-" || Ascii.eqb c "."
      then
        if first then Some ("", whole)
        else
          match getScheme_loop false r whole with
          | Some (EmptyString, _) => Some ("", whole)
          | Some (sch, rest) => Some (String c sch, rest)
          | None => None
          end
      else if Ascii.eqb c ":" then
        if first then None else Some (":", r)
      else Some ("", whole)
  end.

(** Returns the scheme (without its colon) and the rest of the input. *)
Definition getScheme (rawURL : string) : option (string * string) :=
  match getScheme_loop true rawURL rawURL with
  | None => None
  | Some (EmptyString, rest) => Some ("", rest)
  | Some (sch, rest) =>
      Some (String.substring 0 (String.length sch - 1) sch, rest)
  end.

(** Percent escapes of a path must be followed by two hex digits. *)
Definition is_hex (c : ascii) : bool :=
  is_digit c ||
  ((97 <=? byte_val c) && (byte_val c <=? 102)) ||
  ((65 <=? byte_val c) && (byte_val c <=? 70)).

Fixpoint valid_escapes (s : string) : bool :=
  match s with
  | EmptyString => true
  | String "%" (String a (String b r)) => is_hex a && is_hex b && valid_escapes r
  | String "%" _ => false
  | String _ r => valid_escapes r
  end.

(** The last index of a separator, as a split of the string around it. *)
Fixpoint cut_last (sep : ascii) (s : string) : option (string * string) :=
  match s with
  | EmptyString => None
  | String c r =>
      match cut_last sep r with
      | Some (a, b) => Some (String c a, b)
      | None => if Ascii.eqb c sep then Some ("", r) else None
      end
  end.

(** [validOptionalPort] on what follows the host name. *)
Definition validOptionalPort (port : string) : bool :=
  match port with
  | EmptyString => true
  | String ":" ds => string_forallb is_digit ds
  | _ => false
  end.

(** [parseAuthority]: userinfo before the last [@], then the host, whose
    port (after the last colon of a host without brackets) is decimal. *)
Definition parseAuthority (authority : string) : option (option string * string) :=
  let '(user, host) :=
    match cut_last "@" authority with
    | Some (u, h) => (Some u, h)
    | None => (None, authority)
    end in
  let port_ok :=
    if has_prefix "[" host then
      match cut_last "]" host with
      | Some (_, port) => validOptionalPort port
      | None => false
      end
    else
      match cut_last ":" host with
      | Some (_, ds) => string_forallb is_digit ds
      | None => true
      end in
  if port_ok && valid_escapes host then Some (user, host) else None.

(** [parse(rawURL, false)] followed by the lowering of the scheme. *)
Definition parse_nofrag (rawURL : string) : option URL :=
  if negb (string_forallb (fun c => negb (is_ctl c)) rawURL) then None
  else if String.eqb rawURL "*" then
    Some (mkURL "" "" None "" "*" false "" "")
  else
    '(scheme, rest) ← getScheme rawURL;
    let scheme := string_map to_lower scheme in
    let '(rest, query, nq) := cut "?" rest in
    let force := nq && String.eqb query "" in
    if negb (has_prefix "/" rest) && negb (String.eqb scheme "") then
      Some (mkURL scheme rest None "" "" force query "")
    else if negb (has_prefix "/" rest) &&
            contains ":" (fst (fst (cut "/" rest))) then None
    else if has_prefix "//" rest &&
            (negb (String.eqb scheme "") || negb (has_prefix "///" rest)) then
      let authority := String.substring 2 (String.length rest - 2) rest in
      let '(authority, path) :=
        match cut "/" authority with
        | (a, p, true) => (a, String "/" p)
        | (a, _, false) => (a, "")
        end in
      '(user, host) ← parseAuthority authority;
      if valid_escapes path
      then Some (mkURL scheme "" user host path force query "")
      else None
    else if valid_escapes rest
    then Some (mkURL scheme "" None "" rest force query "")
    else None.

(** [url.Parse] *)
Definition Parse (rawURL : string) : option URL :=
  let '(u, frag, _) := cut "#" rawURL in
  url ← parse_nofrag u;
  if valid_escapes frag
  then Some (mkURL (Scheme url) (Opaque url) (User url) (Host url) (Path url)
                   (ForceQuery url) (RawQuery url) frag)
  else None.

(** Path segments between slashes. *)
Fixpoint split_slash (s : string) (cur : string) : list string :=
  match s with
  | EmptyString => [cur]
  | String c r =>
      if Ascii.eqb c "/" then cur :: split_slash r ""
      else split_slash r (cur +:+ String c "")
  end.

(** The loop of [resolvePath] over the segments: [dst] is the list of
    segments written so far (those after the leading slash). *)
Fixpoint remove_dots (elems : list string) (dst : list string) : list string :=
  match elems with
  | [] => dst
  | e :: rest =>
      if String.eqb e "." then remove_dots rest dst
      else if String.eqb e ".." then remove_dots rest (removelast dst)
      else remove_dots rest (dst ++ [e])
  end.

Fixpoint join_slash (l : list string) : string :=
  match l with
  | [] => ""
  | [e] => e
  | e :: r => e +:+ "/" +:+ join_slash r
  end.

(** [resolvePath(base, ref)] *)
Definition resolvePath (base ref : string) : string :=
  let full :=
    match ref with
    | EmptyString => base
    | String "/" _ => ref
    | _ =>
        match cut_last "/" base with
        | Some (dir, _) => dir +:+ "/" +:+ ref
        | None => ref
        end
    end in
  match full with
  | EmptyString => ""
  | _ =>
      let elems := split_slash full "" in
      let last := List.last elems "" in
      let dst := remove_dots elems [] in
      let r := "/" +:+ join_slash dst +:+
               (if String.eqb last "." || String.eqb last ".." then "/" else "") in
      match r with
      | String "/" (String "/" r') => String "/" r'
      | _ => r
      end
  end.

(** [u.ResolveReference(ref)] *)
Definition ResolveReference (u ref : URL) : URL :=
  let scheme := if String.eqb (Scheme ref) "" then Scheme u else Scheme ref in
  if negb (String.eqb (Scheme ref) "") || negb (String.eqb (Host ref) "")
     || bool_decide (User ref <> None) then
    mkURL scheme (Opaque ref) (User ref) (Host ref)
          (resolvePath (Path ref) "") (ForceQuery ref) (RawQuery ref) (Fragment ref)
  else if negb (String.eqb (Opaque ref) "") then
    mkURL scheme (Opaque ref) None "" "" (ForceQuery ref) (RawQuery ref) (Fragment ref)
  else
    let inherit := String.eqb (Path ref) "" && negb (ForceQuery ref)
                   && String.eqb (RawQuery ref) "" in
    mkURL scheme (Opaque ref) (User u) (Host u)
          (resolvePath (Path u) (Path ref)) (ForceQuery ref)
          (if inherit then RawQuery u else RawQuery ref)
          (if inherit && String.eqb (Fragment ref) "" then Fragment u
           else Fragment ref).

(** [u.IsAbs()] *)
Definition IsAbs (u : URL) : bool := negb (String.eqb (Scheme u) "").

(** [u.Parse(ref)]: parse [ref] and resolve it against [u]. *)
Definition URL_Parse (u : URL) (ref : string) : option URL :=
  refURL ← Parse ref;
  Some (ResolveReference u refURL).

(** [u.String()] *)
Definition URL_String (u : URL) : string :=
  (if String.eqb (Scheme u) "" then "" else Scheme u +:+ ":") +:+
  (if negb (String.eqb (Opaque u) "") then Opaque u
   else
     (if negb (String.eqb (Scheme u) "") || negb (String.eqb (Host u) "")
         || bool_decide (User u <> None)
      then
        (if negb (String.eqb (Host u) "") || negb (String.eqb (Path u) "")
            || bool_decide (User u <> None) then "//" else "") +:+
        match User u with Some ui => ui +:+ "@" | None => "" end +:+ Host u
      else "") +:+
     (if negb (String.eqb (Path u) "") && negb (has_prefix "/" (Path u))
         && negb (String.eqb (Host u) "") then "/" else "") +:+
     Path u) +:+
  (if ForceQuery u || negb (String.eqb (RawQuery u) "")
   then "?" +:+ RawQuery u else "") +:+
  (if String.eqb (Fragment u) "" then "" else "#" +:+ Fragment u).

End url.

(** ** net/http headers *)

Module http.

(** [textproto.CanonicalMIMEHeaderKey] on a key made of token bytes:
    the first letter and every letter after a hyphen are upper-cased, all
    other letters lower-cased. *)
Fixpoint canonical_loop (upper : bool) (s : string) : string :=
  match s with
  | EmptyString => EmptyString
  | String c r =>
      String (if upper then to_upper c else to_lower c)
             (canonical_loop (Ascii.eqb c "-") r)
  end.

Definition is_token_byte (c : ascii) : bool :=
  is_letter c || is_digit c ||
  existsb (Ascii.eqb c)
    (list_ascii_of_string "!#$%&'*+-.^_`|~").

Definition CanonicalHeaderKey (s : string) : string :=
  if string_forallb is_token_byte s then canonical_loop true s else s.

(** [http.Header] is [map[string][]string]. *)
Definition Header := gmap string (list string).

Definition Header_Get (h : Header) (key : string) : string :=
  match h !! CanonicalHeaderKey key with
  | Some (v :: _) => v
  | _ => ""
  end.

Definition Header_Set (h : Header) (key value : string) : Header :=
  <[CanonicalHeaderKey key := [value]]> h.

(** A response body as a reader: the bytes it delivers and then either
    end of file ([None]) or a read failure. *)
Record Body := mkBody { body_data : string; body_err : option string }.

(** [http.Request], the fields the package sets or reads. *)
Record Request := mkRequest {
  Method : string;
  URL : url.URL;
  ReqHeader : Header;
  ReqBody : option string
}.

(** [http.Response], the fields the package reads. A [*http.Response] is
    shared between the caller, the wrapper [Response] and the [Error] built
    from it; functions that write through the pointer return the new
    contents. *)
Record Response := mkResponse {
  StatusCode : Z;
  Header_ : Header;
  Body_ : Body;
  Request_ : Request
}.

(** [ioutil.ReadAll(r.Body)] *)
Definition ReadAll (b : Body) : string * option string :=
  (body_data b, body_err b).

(** [validMethod]: a non-empty token. *)
Definition validMethod (m : string) : bool :=
  negb (String.eqb m "") && string_forallb is_token_byte m.

End http.

(** ** time *)

Module time.

(** [time.Duration]: a signed 64-bit count of nanoseconds. *)
Definition Duration := Z.
Definition Second : Duration := 1000000000.

(** [a * b] on [Duration] (int64 multiplication). *)
Definition Duration_mul (a b : Duration) : Duration := wrap64 (a * b).

(** [time.Time] as an instant, in nanoseconds since 0001-01-01T00:00:00Z
    (the zero value of the Go type), with the offset east of UTC, in
    seconds, of its location. The monotonic clock reading and the identity
    of the location are not part of the model. *)
Record Time := mkTime { t_ns : Z; t_zone : Z }.

(** [time.Time{}] *)
Definition zero : Time := mkTime 0 0.

Definition Time_eqb (a b : Time) : bool :=
  (t_ns a =? t_ns b) && (t_zone a =? t_zone b).

(** [t.Equal(u)]: same instant. *)
Definition Equal (t u : Time) : bool := t_ns t =? t_ns u.

(** [t.Add(d)] *)
Definition Add (t : Time) (d : Duration) : Time :=
  mkTime (t_ns t + d) (t_zone t).

(** [t.Sub(u)]: saturates at the ends of the [Duration] range. *)
Definition Sub (t u : Time) : Duration :=
  let d := t_ns t - t_ns u in
  if in_int64 d then d
  else if d <? 0 then MinInt64 else MaxInt64.

(** *** Calendar *)

Definition isLeap (year : Z) : bool :=
  (year mod 4 =? 0) && (negb (year mod 100 =? 0) || (year mod 400 =? 0)).

(** [daysBefore[m]]: days in a non-leap year before month [m+1]. *)
Definition daysBefore (m : Z) : Z :=
  match m with
  | 0 => 0 | 1 => 31 | 2 => 59 | 3 => 90 | 4 => 120 | 5 => 151 | 6 => 181
  | 7 => 212 | 8 => 243 | 9 => 273 | 10 => 304 | 11 => 334 | _ => 365
  end.

(** Days of month [m] in a leap or a common year. *)
Definition daysIn_leap (m : Z) (leap : bool) : Z :=
  if (m =? 2) && leap then 29
  else daysBefore m - daysBefore (m - 1).

Definition daysIn (m year : Z) : Z := daysIn_leap m (isLeap year).

(** [absDate(abs, false)]: the year and the day of the year (from 0) of the
    day number [d], which counts days since 0001-01-01. *)
Definition absYearDay (d : Z) : Z * Z :=
  let n400 := d / 146097 in
  let d1 := d - 146097 * n400 in
  let n100 := d1 / 36524 in
  let n100 := n100 - Z.shiftr n100 2 in
  let d2 := d1 - 36524 * n100 in
  let n4 := d2 / 1461 in
  let d3 := d2 - 1461 * n4 in
  let n1 := d3 / 365 in
  let n1 := n1 - Z.shiftr n1 2 in
  let yday := d3 - 365 * n1 in
  (1 + 400 * n400 + 100 * n100 + 4 * n4 + n1, yday).

(** The rest of [absDate]: month (1..12) and day of the month (1..31) of a
    day of the year. *)
Definition monthDay (leap : bool) (yday : Z) : Z * Z :=
  if leap && (yday =? 31 + 29 - 1) then (2, 29)
  else
    let day := if leap && (31 + 29 - 1 <? yday) then yday - 1 else yday in
    let month := day / 31 in
    let e := daysBefore (month + 1) in
    let '(month, begin) :=
      if e <=? day then (month + 1, e) else (month, daysBefore month) in
    (month + 1, day - begin + 1).

(** [absDate(abs, true)]: year, month and day of the month. *)
Definition absDate (d : Z) : Z * (Z * Z) :=
  let '(year, yday) := absYearDay d in
  (year, monthDay (isLeap year) yday).

(** [daysSinceEpoch], counted from year 1. *)
Definition daysSinceEpoch (year : Z) : Z :=
  let y := year - 1 in
  let n400 := y / 400 in
  let y1 := y - 400 * n400 in
  let n100 := y1 / 100 in
  let y2 := y1 - 100 * n100 in
  let n4 := y2 / 4 in
  let y3 := y2 - 4 * n4 in
  146097 * n400 + 36524 * n100 + 1461 * n4 + 365 * y3.

(** [time.Date(year, month, day, hour, min, sec, nsec, UTC)] for fields
    already in range (which [Parse] guarantees), as an instant. *)
Definition Date_ns (year month day hour min sec nsec : Z) : Z :=
  let d := daysSinceEpoch year + daysBefore (month - 1) in
  let d := if isLeap year && (3 <=? month) then d + 1 else d in
  let d := d + (day - 1) in
  (d * 86400 + hour * 3600 + min * 60 + sec) * 1000000000 + nsec.

(** [t.Year()] *)
Definition Year (t : Time) : Z :=
  fst (absYearDay ((t_ns t / 1000000000 + t_zone t) / 86400)).

(** [t.Truncate(d)]: [t] rounded down to a multiple of [d] since the zero
    time. *)
Definition Truncate (t : Time) (d : Duration) : Time :=
  if d <=? 0 then t else mkTime (t_ns t - t_ns t mod d) (t_zone t).

(** *** Formatting with the layout [time.RFC3339] *)

Fixpoint zeros (n : nat) : string :=
  match n with O => "" | S k => String "0" (zeros k) end.

(** [appendInt(b, x, width)]: zero-padded decimal. *)
Definition appendInt (x : Z) (width : nat) : string :=
  let u := strconv.utoa (Z.abs x) in
  let pad := zeros (width - String.length u) in
  (if x <? 0 then "-" else "") +:+ pad +:+ u.

(** [t.Format(time.RFC3339)] *)
Definition Format_RFC3339 (t : Time) : string :=
  let abs := t_ns t / 1000000000 + t_zone t in
  let '(year, (month, day)) := absDate (abs / 86400) in
  let secs := abs mod 86400 in
  let date := appendInt year 4 +:+ "-" +:+ appendInt month 2 +:+ "-" +:+
              appendInt day 2 in
  let clock := appendInt (secs / 3600) 2 +:+ ":" +:+
               appendInt (secs mod 3600 / 60) 2 +:+ ":" +:+
               appendInt (secs mod 60) 2 in
  let zone :=
    if t_zone t =? 0 then "Z"
    else
      let z := Z.quot (t_zone t) 60 in
      (if z <? 0 then "-" else "+") +:+
      appendInt (Z.abs z / 60) 2 +:+ ":" +:+ appendInt (Z.abs z mod 60) 2 in
  date +:+ "T" +:+ clock +:+ zone.

(** *** Parsing with the layout [time.RFC3339] *)

(** [getnum]: one or two decimal digits; two are required when [fixed]. *)
Definition getnum (s : string) (fixed : bool) : option (Z * string) :=
  match s with
  | String c0 r0 =>
      if is_digit c0 then
        match r0 with
        | String c1 r1 =>
            if is_digit c1 then Some (digit_val c0 * 10 + digit_val c1, r1)
            else if fixed then None else Some (digit_val c0, r0)
        | EmptyString => if fixed then None else Some (digit_val c0, r0)
        end
      else None
  | EmptyString => None
  end.

(** The chunk [2006]: exactly four digits. *)
Definition getyear (s : string) : option (Z * string) :=
  match s with
  | String a (String b (String c (String d r))) =>
      if is_digit a && is_digit b && is_digit c && is_digit d
      then Some (((digit_val a * 10 + digit_val b) * 10 + digit_val c) * 10
                 + digit_val d, r)
      else None
  | _ => None
  end.

(** A literal byte of the layout. *)
Definition expect (c : ascii) (s : string) : option string :=
  match s with
  | String c' r => if Ascii.eqb c' c then Some r else None
  | EmptyString => None
  end.

Definition commaOrPeriod (c : ascii) : bool :=
  Ascii.eqb c "." || Ascii.eqb c ",".

(** The digits of a fractional second: at most nine are used, the value is
    scaled to nanoseconds, further digits are skipped. *)
Fixpoint frac_digits (s : string) (left : nat) (acc : Z) : Z * string :=
  match s with
  | String c r =>
      if is_digit c then
        match left with
        | O => frac_digits r O acc
        | S k => frac_digits r k (acc + digit_val c * 10 ^ Z.of_nat k)
        end
      else (acc, s)
  | EmptyString => (acc, s)
  end.

(** A fractional second in the input that the layout does not mention. *)
Definition getfrac (s : string) : Z * string :=
  match s with
  | String c0 (String c1 r) =>
      if commaOrPeriod c0 && is_digit c1 then frac_digits (String c1 r) 9 0
      else (0, s)
  | _ => (0, s)
  end.

(** The chunk [Z07:00]: returns the offset in seconds east of UTC. *)
Definition getzone (s : string) : option (Z * string) :=
  match s with
  | String "Z" r => Some (0, r)
  | String sg (String h1 (String h2 (String col (String m1 (String m2 r))))) =>
      if Ascii.eqb col ":" then
        '(hr, _) ← getnum (String h1 (String h2 "")) true;
        '(mm, _) ← getnum (String m1 (String m2 "")) true;
        if (24 <? hr) || (60 <? mm) then None
        else
          let off := (hr * 60 + mm) * 60 in
          if Ascii.eqb sg "+" then Some (off, r)
          else if Ascii.eqb sg "-" then Some (- off, r)
          else None
      else None
  | _ => None
  end.

(** [time.Parse(time.RFC3339, value)]; [None] is a [*time.ParseError]. *)
Definition Parse_RFC3339 (value : string) : option Time :=
  '(year, v) ← getyear value;
  v ← expect "-" v;
  '(month, v) ← getnum v true;
  if (month <=? 0) || (12 <? month) then None else
  v ← expect "-" v;
  '(day, v) ← getnum v true;
  v ← expect "T" v;
  '(hour, v) ← getnum v false;
  if 24 <=? hour then None else
  v ← expect ":" v;
  '(min, v) ← getnum v true;
  if 60 <=? min then None else
  v ← expect ":" v;
  '(sec, v) ← getnum v true;
  if 60 <=? sec then None else
  let '(nsec, v) := getfrac v in
  '(off, v) ← getzone v;
  match v with
  | EmptyString =>
      if (day <? 1) || (daysIn month year <? day) then None
      else Some (mkTime (Date_ns year month day hour min sec nsec
                         - off * 1000000000) off)
  | _ => None
  end.

End time.

(** ** Package esi: data *)

(** [type Rate struct { Remaining int; Reset time.Time }] *)
Record Rate := mkRate { Remaining : Z; Reset : time.Time }.

(** [var rate Rate] *)
Definition Rate_zero : Rate := mkRate 0 time.zero.

(** Where the field [Response *http.Response] of an [Error] points: nowhere,
    to the response the error was built from, or to a response struct that a
    decoder allocated. *)
Inductive ResponsePtr := PtrNil | PtrToResponse | PtrFresh.

(** [type Error struct { Response *http.Response; HTTPStatusCode int;
    Err string `json:"error"`; Rate }] *)
Record Error := mkError {
  Error_Response : ResponsePtr;
  HTTPStatusCode : Z;
  Err : string;
  Error_Rate : Rate
}.

(** [func (e Error) Error() string] *)
Definition Error_Error (e : Error) : string := Err e.

(** Values of the Go interface [error] that reach the package. *)
Inductive error :=
| io_EOF
| io_ErrUnexpectedEOF
| io_failure (msg : string)
| json_SyntaxError
| json_UnmarshalTypeError
| json_UnsupportedTypeError
| time_ParseError
| url_ParseError
| http_invalidMethod
| transport_failure (msg : string)
| esi_Error (e : Error).

(** A call either returns or panics. *)
Inductive outcome (A : Type) :=
| Returns (a : A)
| Panics (msg : string).
Arguments Returns {A} a.
Arguments Panics {A} msg.

(** [type Timestamp struct { time.Time }] *)
Record Timestamp := mkTimestamp { Time : time.Time }.

(** ** encoding/json: syntax *)

Module json.

(** A JSON text as the decoder scans it. Strings and keys carry the bytes
    between their quotes as written (escapes still in place), numbers
    their literal, arrays and objects the bytes they were scanned from
    (what an [Unmarshaler] is handed). *)
#[local] Unset Elimination Schemes.
Inductive value :=
| Null
| Bool (b : bool)
| Number (lit : string)
| Str (raw : string)
| Array (raw : string) (vs : list value)
| Object (raw : string) (kvs : list (string * value)).
#[local] Set Elimination Schemes.

(** Result of scanning a prefix of the input: a value and the unread rest,
    a syntax error, or the end of the input before the value is complete. *)
Inductive scan (A : Type) :=
| Scanned (a : A) (rest : string)
| BadSyntax
| EndOfInput.
Arguments Scanned {A} a rest.
Arguments BadSyntax {A}.
Arguments EndOfInput {A}.

Definition scan_bind {A B} (m : scan A) (k : A -> string -> scan B) : scan B :=
  match m with
  | Scanned a rest => k a rest
  | BadSyntax => BadSyntax
  | EndOfInput => EndOfInput
  end.

Definition is_space (c : ascii) : bool :=
  Ascii.eqb c " " || Ascii.eqb c "009" || Ascii.eqb c "013" || Ascii.eqb c "010".

Fixpoint skip_ws (s : string) : string :=
  match s with
  | String c r => if is_space c then skip_ws r else s
  | EmptyString => s
  end.

Definition is_hex (c : ascii) : bool :=
  is_digit c ||
  ((97 <=? byte_val c) && (byte_val c <=? 102)) ||
  ((65 <=? byte_val c) && (byte_val c <=? 70)).

Definition hex_val (c : ascii) : Z :=
  if is_digit c then byte_val c - 48
  else if 97 <=? byte_val c then byte_val c - 87
  else byte_val c - 55.

(** States of the scanner inside a string literal. *)
Inductive str_state := InString | InEsc | InEscU (more : nat).

(** Scans the inside of a string literal up to its closing quote. *)
Fixpoint scan_string (st : str_state) (s : string) : scan string :=
  match s with
  | EmptyString => EndOfInput
  | String c r =>
      let keep st' := scan_bind (scan_string st' r)
                        (fun raw rest => Scanned (String c raw) rest) in
      match st with
      | InString =>
          if Ascii.eqb c "034" then Scanned "" r
          else if Ascii.eqb c "\" then keep InEsc
          else if byte_val c <? 32 then BadSyntax
          else keep InString
      | InEsc =>
          if existsb (Ascii.eqb c) ("034"%char :: list_ascii_of_string "bfnrt\/")
          then keep InString
          else if Ascii.eqb c "u" then keep (InEscU 3)
          else BadSyntax
      | InEscU n =>
          if is_hex c
          then keep (match n with O => InString | S k => InEscU k end)
          else BadSyntax
      end
  end.

(** States of the scanner inside a number literal. *)
Inductive num_state :=
| NumNeg | NumZero | NumInt | NumDot | NumFrac | NumE | NumESign | NumExp.

Definition num_accepting (st : num_state) : bool :=
  match st with
  | NumZero | NumInt | NumFrac | NumExp => true
  | _ => false
  end.

Definition num_step (st : num_state) (c : ascii) : option num_state :=
  let e := Ascii.eqb c "e" || Ascii.eqb c "E" in
  match st with
  | NumNeg =>
      if Ascii.eqb c "0" then Some NumZero
      else if is_digit c then Some NumInt else None
  | NumZero =>
      if Ascii.eqb c "." then Some NumDot else if e then Some NumE else None
  | NumInt =>
      if is_digit c then Some NumInt
      else if Ascii.eqb c "." then Some NumDot
      else if e then Some NumE else None
  | NumDot => if is_digit c then Some NumFrac else None
  | NumFrac =>
      if is_digit c then Some NumFrac else if e then Some NumE else None
  | NumE =>
      if Ascii.eqb c "+" || Ascii.eqb c "-" then Some NumESign
      else if is_digit c then Some NumExp else None
  | NumESign => if is_digit c then Some NumExp else None
  | NumExp => if is_digit c then Some NumExp else None
  end.

(** Scans the rest of a number literal; the input ending is taken as the
    end of the number when the literal read so far is complete. *)
Fixpoint scan_number (st : num_state) (s : string) : scan string :=
  match s with
  | EmptyString => if num_accepting st then Scanned "" "" else EndOfInput
  | String c r =>
      match num_step st c with
      | Some st' => scan_bind (scan_number st' r)
                      (fun lit rest => Scanned (String c lit) rest)
      | None => if num_accepting st then Scanned "" s else BadSyntax
      end
  end.

(** Scans the remaining bytes [lit] of one of [true], [false], [null]. *)
Fixpoint scan_literal (lit : string) (s : string) : scan unit :=
  match lit with
  | EmptyString => Scanned tt s
  | String l lit' =>
      match s with
      | EmptyString => EndOfInput
      | String c r => if Ascii.eqb c l then scan_literal lit' r else BadSyntax
      end
  end.

(** The bytes of [s] in front of its suffix [rest]. *)
Definition consumed (s rest : string) : string :=
  String.substring 0 (String.length s - String.length rest) s.

(** The value grammar. [fuel] bounds the number of nested and successive
    values; [parse] supplies enough for the whole input. *)
Fixpoint scan_value (fuel : nat) (s : string) : scan value :=
  match fuel with
  | O => BadSyntax
  | S f =>
      let s0 := skip_ws s in
      match s0 with
      | EmptyString => EndOfInput
      | String c r =>
          if Ascii.eqb c "034" then
            scan_bind (scan_string InString r) (fun raw rest => Scanned (Str raw) rest)
          else if Ascii.eqb c "{" then
            match skip_ws r with
            | String "}" r' => Scanned (Object (consumed s0 r') []) r'
            | r' => scan_bind (scan_members f r')
                      (fun kvs rest => Scanned (Object (consumed s0 rest) kvs) rest)
            end
          else if Ascii.eqb c "[" then
            match skip_ws r with
            | String "]" r' => Scanned (Array (consumed s0 r') []) r'
            | r' => scan_bind (scan_elems f r')
                      (fun vs rest => Scanned (Array (consumed s0 rest) vs) rest)
            end
          else if Ascii.eqb c "-" then
            scan_bind (scan_number NumNeg r)
              (fun lit rest => Scanned (Number (String c lit)) rest)
          else if Ascii.eqb c "0" then
            scan_bind (scan_number NumZero r)
              (fun lit rest => Scanned (Number (String c lit)) rest)
          else if is_digit c then
            scan_bind (scan_number NumInt r)
              (fun lit rest => Scanned (Number (String c lit)) rest)
          else if Ascii.eqb c "t" then
            scan_bind (scan_literal "rue" r) (fun _ rest => Scanned (Bool true) rest)
          else if Ascii.eqb c "f" then
            scan_bind (scan_literal "alse" r) (fun _ rest => Scanned (Bool false) rest)
          else if Ascii.eqb c "n" then
            scan_bind (scan_literal "ull" r) (fun _ rest => Scanned Null rest)
          else BadSyntax
      end
  end
with scan_elems (fuel : nat) (s : string) : scan (list value) :=
  match fuel with
  | O => BadSyntax
  | S f =>
      scan_bind (scan_value f s) (fun v rest =>
        match skip_ws rest with
        | EmptyString => EndOfInput
        | String c r =>
            if Ascii.eqb c "," then
              scan_bind (scan_elems f r) (fun vs rest' => Scanned (v :: vs) rest')
            else if Ascii.eqb c "]" then Scanned [v] r
            else BadSyntax
        end)
  end
with scan_members (fuel : nat) (s : string) : scan (list (string * value)) :=
  match fuel with
  | O => BadSyntax
  | S f =>
      match skip_ws s with
      | EmptyString => EndOfInput
      | String c r =>
          if Ascii.eqb c "034" then
            scan_bind (scan_string InString r) (fun key rest =>
              match skip_ws rest with
              | EmptyString => EndOfInput
              | String c1 r1 =>
                  if Ascii.eqb c1 ":" then
                    scan_bind (scan_value f r1) (fun v rest1 =>
                      match skip_ws rest1 with
                      | EmptyString => EndOfInput
                      | String c2 r2 =>
                          if Ascii.eqb c2 "," then
                            scan_bind (scan_members f r2)
                              (fun kvs rest2 => Scanned ((key, v) :: kvs) rest2)
                          else if Ascii.eqb c2 "}" then Scanned [(key, v)] r2
                          else BadSyntax
                      end)
                  else BadSyntax
              end)
          else BadSyntax
      end
  end.

(** Scans the first value of [s]. *)
Definition parse (s : string) : scan value :=
  scan_value (2 * String.length s + 2) s.

(** *** Decoding into Go values *)

(** The bytes of a scanned value, as passed to [UnmarshalJSON]. *)
Definition raw_of (v : value) : string :=
  match v with
  | Null => "null"
  | Bool true => "true"
  | Bool false => "false"
  | Number lit => lit
  | Str raw => String "034" (raw +:+ String "034" "")
  | Array raw _ => raw
  | Object raw _ => raw
  end.

(** [utf8.AppendRune] *)
Definition encode_rune (r : Z) : string :=
  let b n := String (byte_of_Z n) "" in
  if r <? 128 then b r
  else if r <? 2048 then b (192 + r / 64) +:+ b (128 + r mod 64)
  else if r <? 65536 then
    b (224 + r / 4096) +:+ b (128 + r / 64 mod 64) +:+ b (128 + r mod 64)
  else
    b (240 + r / 262144) +:+ b (128 + r / 4096 mod 64) +:+
    b (128 + r / 64 mod 64) +:+ b (128 + r mod 64).

Definition hex4 (a b c d : ascii) : Z :=
  ((hex_val a * 16 + hex_val b) * 16 + hex_val c) * 16 + hex_val d.

(** [unquote] on the inside of a scanned string literal: escapes are
    replaced, a surrogate pair becomes one code point and a lone surrogate
    U+FFFD. Bytes outside escapes are copied (the input is taken to be
    valid UTF-8, which Go would otherwise coerce). *)
Fixpoint unquote (raw : string) : string :=
  match raw with
  | EmptyString => ""
  | String "\" (String "u" (String a (String b (String c (String d r))))) =>
      let r1 := hex4 a b c d in
      if (55296 <=? r1) && (r1 <? 57344) then
        match r with
        | String "\" (String "u" (String a' (String b' (String c' (String d' r'))))) =>
            let r2 := hex4 a' b' c' d' in
            if (r1 <? 56320) && (56320 <=? r2) && (r2 <? 57344)
            then encode_rune ((r1 - 55296) * 1024 + (r2 - 56320) + 65536) +:+ unquote r'
            else encode_rune 65533 +:+ unquote r
        | _ => encode_rune 65533 +:+ unquote r
        end
      else encode_rune r1 +:+ unquote r
  | String "\" (String c r) =>
      let c' :=
        if Ascii.eqb c "b" then "008"%char
        else if Ascii.eqb c "f" then "012"%char
        else if Ascii.eqb c "n" then "010"%char
        else if Ascii.eqb c "r" then "013"%char
        else if Ascii.eqb c "t" then "009"%char
        else c in
      String c' (unquote r)
  | String c r => String c (unquote r)
  end.

(** What a store into a Go value leaves behind: the value, with the first
    type mismatch saved for the end ([d.saveError]); or the decoding
    stopped by an error of an [Unmarshaler]; or a panic. In each case the
    target keeps what was written before. *)
Inductive dres (T : Type) :=
| Stored (t : T) (saved : option error)
| Aborted (t : T) (e : error)
| Panicked (t : T) (msg : string).
Arguments Stored {T} t saved.
Arguments Aborted {T} t e.
Arguments Panicked {T} t msg.

Definition saveError (saved : option error) (e : error) : option error :=
  match saved with
  | Some _ => saved
  | None => Some e
  end.

Definition dres_bind {T U} (m : dres T) (k : T -> option error -> dres U)
    (back : T -> U) : dres U :=
  match m with
  | Stored t saved => k t saved
  | Aborted t e => Aborted (back t) e
  | Panicked t msg => Panicked (back t) msg
  end.

(** A store into a field of kind [string]. *)
Definition store_string (v : value) (old : string) (saved : option error)
  : dres string :=
  match v with
  | Null => Stored old saved
  | Str raw => Stored (unquote raw) saved
  | _ => Stored old (saveError saved json_UnmarshalTypeError)
  end.

(** A store into a field of kind [int]: the literal must be a decimal
    integer in range. *)
Definition store_int (v : value) (old : Z) (saved : option error) : dres Z :=
  match v with
  | Null => Stored old saved
  | Number lit =>
      match strconv.ParseInt lit with
      | (n, None) => Stored n saved
      | _ => Stored old (saveError saved json_UnmarshalTypeError)
      end
  | _ => Stored old (saveError saved json_UnmarshalTypeError)
  end.

(** A store into a [[]string], starting from its zero value. *)
Fixpoint store_strings_elems (vs : list value) (saved : option error)
  : list string * option error :=
  match vs with
  | [] => ([], saved)
  | v :: rest =>
      let '(x, saved) :=
        match store_string v "" saved with
        | Stored x sv => (x, sv)
        | Aborted x _ | Panicked x _ => (x, saved)
        end in
      let '(xs, saved) := store_strings_elems rest saved in
      (x :: xs, saved)
  end.

Definition store_strings (v : value) (saved : option error)
  : list string * option error :=
  match v with
  | Null => ([], saved)
  | Array _ vs => store_strings_elems vs saved
  | _ => ([], saveError saved json_UnmarshalTypeError)
  end.

(** A store into a [map[string][]string]: entries are added to the map
    that is there. *)
Fixpoint store_header_entries (kvs : list (string * value)) (h : http.Header)
    (saved : option error) : http.Header * option error :=
  match kvs with
  | [] => (h, saved)
  | (k, v) :: rest =>
      let '(xs, saved) := store_strings v saved in
      store_header_entries rest (<[unquote k := xs]> h) saved
  end.

Definition store_header (v : value) (h : http.Header) (saved : option error)
  : http.Header * option error :=
  match v with
  | Null => (∅, saved)
  | Object _ kvs => store_header_entries kvs h saved
  | _ => (h, saveError saved json_UnmarshalTypeError)
  end.

(** [time.Time.UnmarshalJSON] *)
Definition Time_UnmarshalJSON (data : string) (t : time.Time)
  : time.Time * option error :=
  if String.eqb data "null" then (t, None)
  else
    match data with
    | String "034" inner =>
        match inner with
        | EmptyString => (t, Some (io_failure "input is not a JSON string"))
        | _ =>
            let last := String.substring (String.length inner - 1) 1 inner in
            if String.eqb last (String "034" "") then
              match time.Parse_RFC3339
                      (String.substring 0 (String.length inner - 1) inner) with
              | Some t' => (t', None)
              | None => (t, Some time_ParseError)
              end
            else (t, Some (io_failure "input is not a JSON string"))
        end
    | _ => (t, Some (io_failure "input is not a JSON string"))
    end.

(** A struct field is found by its exact name, else by the first name
    equal to the key up to the case of ASCII letters. *)
Definition fold_eq (a b : string) : bool :=
  String.eqb (string_map to_lower a) (string_map to_lower b).

Definition find_field (names : list string) (key : string) : option string :=
  match List.find (String.eqb key) names with
  | Some n => Some n
  | None => List.find (fold_eq key) names
  end.

(** The members of an object, stored in the order they are written. *)
Fixpoint store_members {T} (field : string -> value -> T -> option error -> dres T)
    (kvs : list (string * value)) (t : T) (saved : option error) : dres T :=
  match kvs with
  | [] => Stored t saved
  | (k, v) :: rest =>
      match field k v t saved with
      | Stored t' saved' => store_members field rest t' saved'
      | stop => stop
      end
  end.

(** A store into a struct whose fields are stored by [field]. *)
Definition store_struct {T} (field : string -> value -> T -> option error -> dres T)
    (v : value) (t : T) (saved : option error) : dres T :=
  match v with
  | Null => Stored t saved
  | Object _ kvs => store_members field kvs t saved
  | _ => Stored t (saveError saved json_UnmarshalTypeError)
  end.

Definition finish {T} (r : dres T) : outcome (T * option error) :=
  match r with
  | Stored t saved => Returns (t, saved)
  | Aborted t e => Returns (t, Some e)
  | Panicked _ msg => Panics msg
  end.

(** [json.Valid(data)]: the whole input is one value, with white space
    around it. *)
Definition Valid (data : string) : bool :=
  match parse data with
  | Scanned _ rest => String.eqb (skip_ws rest) ""
  | _ => false
  end.

(** [json.Unmarshal(data, v)]: the whole input must be one value. *)
Definition Unmarshal {T} (store : value -> T -> option error -> dres T)
    (data : string) (t : T) : outcome (T * option error) :=
  match parse data with
  | Scanned v rest =>
      if String.eqb (skip_ws rest) "" then finish (store v t None)
      else Returns (t, Some json_SyntaxError)
  | _ => Returns (t, Some json_SyntaxError)
  end.

Definition is_composite (v : value) : bool :=
  match v with
  | Array _ _ | Object _ _ => true
  | _ => false
  end.

(** [json.NewDecoder(body).Decode(v)]: the first value of the stream.
    The end of a string, number or literal is only known from the byte
    after it, so when the data ends there the reader is asked once more. *)
Definition Decode {T} (store : value -> T -> option error -> dres T)
    (body : http.Body) (t : T) : outcome (T * option error) :=
  let pending :=
    match http.body_err body with
    | Some m => Some (io_failure m)
    | None => None
    end in
  match parse (http.body_data body) with
  | Scanned v rest =>
      match rest, is_composite v, pending with
      | EmptyString, false, Some e => Returns (t, Some e)
      | _, _, _ => finish (store v t None)
      end
  | BadSyntax => Returns (t, Some json_SyntaxError)
  | EndOfInput =>
      match pending with
      | Some e => Returns (t, Some e)
      | None =>
          if String.eqb (skip_ws (http.body_data body)) ""
          then Returns (t, Some io_EOF)
          else Returns (t, Some io_ErrUnexpectedEOF)
      end
  end.

(** *** Encoding *)

Definition hex_digit (n : Z) : ascii :=
  if n <? 10 then byte_of_Z (48 + n) else byte_of_Z (87 + n).

(** The escape [\u00XX] of a byte. *)
Definition escape_u00 (c : ascii) : string :=
  "\u00" +:+ String (hex_digit (byte_val c / 16)) (String (hex_digit (byte_val c mod 16)) "").

(** The inside of an encoded string: quotes, backslashes and control bytes
    are escaped, and so are the bytes HTML gives a meaning to. Other bytes are
    copied (the string is taken to be valid UTF-8, which Go would otherwise
    coerce). *)
Fixpoint escape (s : string) : string :=
  match s with
  | EmptyString => ""
  | String c r =>
      (if Ascii.eqb c "034" then "\" +:+ String "034" ""
       else if Ascii.eqb c "\" then "\\"
       else if Ascii.eqb c "010" then "\n"
       else if Ascii.eqb c "013" then "\r"
       else if Ascii.eqb c "009" then "\t"
       else if (byte_val c <? 32) || Ascii.eqb c "<" || Ascii.eqb c ">"
               || Ascii.eqb c "&" then escape_u00 c
       else String c "") +:+ escape r
  end.

(** The encoding of a Go string. *)
Definition encode_string (s : string) : string :=
  String "034" (escape s +:+ String "034" "").

(** An object from its encoded members; members left out by [omitempty]
    are [None]. *)
Fixpoint encode_members (ms : list (option (string * string))) (first : bool)
  : string :=
  match ms with
  | [] => ""
  | None :: rest => encode_members rest first
  | Some (k, v) :: rest =>
      (if first then "" else ",") +:+ encode_string k +:+ ":" +:+ v
      +:+ encode_members rest false
  end.

Definition encode_object (ms : list (option (string * string))) : string :=
  "{" +:+ encode_members ms true +:+ "}".

End json.



(** ** Package esi: the pipeline *)

Definition headerErrorRateRemaining : string := "X-ESI-Error-Limit-Remain".
Definition headerErrorRateReset : string := "X-ESI-Error-Limit-Reset".

(** [func parseRate(r *http.Response) Rate]; [now] is the value of [now()]. *)
Definition parseRate (now : time.Time) (r : http.Response) : Rate :=
  let rate := Rate_zero in
  let remaining := http.Header_Get (http.Header_ r) headerErrorRateRemaining in
  let rate :=
    if negb (String.eqb remaining "")
    then mkRate (fst (strconv.Atoi remaining)) (Reset rate)
    else rate in
  let reset := http.Header_Get (http.Header_ r) headerErrorRateReset in
  let rate :=
    if negb (String.eqb reset "") then
      let v := fst (strconv.Atoi reset) in
      if negb (v =? 0)
      then mkRate (Remaining rate)
                  (time.Add now (time.Duration_mul v time.Second))
      else rate
    else rate in
  rate.

(** The exported fields of [http.Response], in declaration order. *)
Definition Response_fields : list string :=
  ["Status"; "StatusCode"; "Proto"; "ProtoMajor"; "ProtoMinor"; "Header";
   "Body"; "ContentLength"; "TransferEncoding"; "Close"; "Uncompressed";
   "Trailer"; "Request"; "TLS"].

(** A store into a field of an [http.Response]. Fields outside the model
    are passed over. *)
Definition store_Response_field (key : string) (v : json.value)
    (r : http.Response) (saved : option error) : json.dres http.Response :=
  match json.find_field Response_fields (json.unquote key) with
  | Some f =>
      if String.eqb f "StatusCode" then
        json.dres_bind (json.store_int v (http.StatusCode r) saved)
          (fun n saved => json.Stored
             (http.mkResponse n (http.Header_ r) (http.Body_ r) (http.Request_ r)) saved)
          (fun _ => r)
      else if String.eqb f "Header" then
        let '(h, saved) := json.store_header v (http.Header_ r) saved in
        json.Stored (http.mkResponse (http.StatusCode r) h (http.Body_ r)
                                     (http.Request_ r)) saved
      else json.Stored r saved
  | None => json.Stored r saved
  end.

Definition Response_zero : http.Response :=
  http.mkResponse 0 ∅ (http.mkBody "" None)
    (http.mkRequest "" url.empty ∅ None).

(** The fields of [Error] as [encoding/json] sees them: the fields of the
    embedded [Rate] are promoted. *)
Definition Error_fields : list string :=
  ["Response"; "HTTPStatusCode"; "error"; "Remaining"; "Reset"].

(** A store into a field of an [Error] whose [Response] may point to the
    response [r] it was built from: a [Response] member of the object is
    then decoded into [r] itself. *)
Definition store_Error_field (key : string) (v : json.value)
    (st : Error * http.Response) (saved : option error)
  : json.dres (Error * http.Response) :=
  let '(e, r) := st in
  let with_ptr p := mkError p (HTTPStatusCode e) (Err e) (Error_Rate e) in
  match json.find_field Error_fields (json.unquote key) with
  | Some f =>
      if String.eqb f "Response" then
        match v with
        | json.Null => json.Stored (with_ptr PtrNil, r) saved
        | json.Object _ kvs =>
            match Error_Response e with
            | PtrToResponse =>
                json.dres_bind (json.store_members store_Response_field kvs r saved)
                  (fun r' saved => json.Stored (e, r') saved) (fun r' => (e, r'))
            | _ =>
                json.dres_bind
                  (json.store_members store_Response_field kvs Response_zero saved)
                  (fun _ saved => json.Stored (with_ptr PtrFresh, r) saved)
                  (fun _ => (with_ptr PtrFresh, r))
            end
        | _ =>
            json.Stored
              (with_ptr match Error_Response e with
                        | PtrNil => PtrFresh
                        | p => p
                        end, r)
              (json.saveError saved json_UnmarshalTypeError)
        end
      else if String.eqb f "HTTPStatusCode" then
        json.dres_bind (json.store_int v (HTTPStatusCode e) saved)
          (fun n saved => json.Stored
             (mkError (Error_Response e) n (Err e) (Error_Rate e), r) saved)
          (fun _ => st)
      else if String.eqb f "error" then
        json.dres_bind (json.store_string v (Err e) saved)
          (fun m saved => json.Stored
             (mkError (Error_Response e) (HTTPStatusCode e) m (Error_Rate e), r) saved)
          (fun _ => st)
      else if String.eqb f "Remaining" then
        json.dres_bind (json.store_int v (Remaining (Error_Rate e)) saved)
          (fun n saved => json.Stored
             (mkError (Error_Response e) (HTTPStatusCode e) (Err e)
                      (mkRate n (Reset (Error_Rate e))), r) saved)
          (fun _ => st)
      else
        match json.Time_UnmarshalJSON (json.raw_of v) (Reset (Error_Rate e)) with
        | (t, None) =>
            json.Stored
              (mkError (Error_Response e) (HTTPStatusCode e) (Err e)
                       (mkRate (Remaining (Error_Rate e)) t), r) saved
        | (_, Some err) => json.Aborted st err
        end
  | None => json.Stored st saved
  end.

(** [json.Unmarshal(data, e)] for [e *Error]. *)
Definition Unmarshal_Error (data : string) (st : Error * http.Response)
  : outcome ((Error * http.Response) * option error) :=
  json.Unmarshal (json.store_struct store_Error_field) data st.

(** [func makeError(r *http.Response) *Error]: returns the error and the
    contents of [*r] when it returns. *)
Definition makeError (now : time.Time) (r : http.Response)
  : outcome (Error * http.Response) :=
  let e := mkError PtrToResponse 0 "" Rate_zero in
  let '(data, err) := http.ReadAll (http.Body_ r) in
  let after :=
    match err with
    | None => Unmarshal_Error data (e, r)
    | Some _ => Returns ((e, r), None)
    end in
  match after with
  | Returns ((e, r), _) =>
      Returns (mkError (Error_Response e) (http.StatusCode r) (Err e)
                       (parseRate now r), r)
  | Panics msg => Panics msg
  end.


(** Where a log line goes: the standard logger of package [log] or a
    configured [*log.Logger] (named by a number). *)
Inductive LogSink := StdLogger | Logger (id : nat).

Definition LogLine : Type := LogSink * string.

(** [func logf(logger *log.Logger, format string, args ...interface{})],
    with the line already formatted. *)
Definition logf (logger : option nat) (line : string) : LogLine :=
  match logger with
  | Some id => (Logger id, line)
  | None => (StdLogger, line)
  end.

(** The cancellation signal handed to [Do]. *)
Record Context := mkContext { ctx_canceled : bool }.

(** The injected [*http.Client]: what [client.Do(req)] returns for a request
    under a context, a failure or a response. *)
Definition HTTPClient : Type := Context -> http.Request -> error + http.Response.

(** [type Client struct]: the transport, the configuration and the rate
    state guarded by [mu]. *)
Record Client := mkClient {
  client : HTTPClient;
  BaseURL : url.URL;
  UserAgent : string;
  Logging_Error : option nat;
  mu_Rate : Rate
}.

Definition DefaultBaseURL : string := "https://esi.evetech.net/".
Definition DefaultUserAgent : string := "corpus.space/esi".

(** [func NewClient(httpClient *http.Client) *Client] *)
Definition NewClient (httpClient : HTTPClient) : Client :=
  mkClient httpClient (default url.empty (url.Parse DefaultBaseURL))
           DefaultUserAgent None Rate_zero.

(** [type Response struct { *http.Response }] *)
Record Response := mkResponse { http_Response : http.Response }.

Definition makeResponse (r : http.Response) : Response := mkResponse r.

(** [func (api *Client) check(resp *http.Response) error]: the error, the
    contents of [*resp] afterwards, and the lines logged. *)
Definition check (api : Client) (now : time.Time) (resp : http.Response)
  : outcome (option Error * http.Response * list LogLine) :=
  let rc := http.StatusCode resp in
  if (200 <=? rc) && (rc <=? 299) then
    let v := http.Header_Get (http.Header_ resp) "warning" in
    let logs :=
      if negb (String.eqb v "") then
        [logf (Logging_Error api)
           ("warning header received (" +:+ http.Method (http.Request_ resp)
            +:+ " " +:+ url.Path (http.URL (http.Request_ resp)) +:+ "): " +:+ v)]
      else [] in
    Returns (None, resp, logs)
  else
    match makeError now resp with
    | Returns (e, resp') => Returns (Some e, resp', [])
    | Panics msg => Panics msg
    end.

(** [io.Writer] *)
Class Writer (W : Type) := Write : W -> string -> W * option string.

(** A destination that is decoded into: how a scanned value is stored in it. *)
Class Decodable (V : Type) :=
  store : json.value -> V -> option error -> json.dres V.

(** The argument [v interface{}] of [Do]. *)
Inductive Dest (W V : Type) :=
| DestNil
| DestWriter (w : W)
| DestValue (v : V).
Arguments DestNil {W V}.
Arguments DestWriter {W V} w.
Arguments DestValue {W V} v.

(** [io.Copy(w, body)]: what was read is written; a failed write or a
    failed read is the error returned. *)
Definition io_Copy {W} `{Writer W} (w : W) (body : http.Body) : W * option error :=
  let '(w', werr) :=
    match http.body_data body with
    | EmptyString => (w, None)
    | data => Write w data
    end in
  match werr, http.body_err body with
  | Some m, _ => (w', Some (io_failure m))
  | None, Some m => (w', Some (io_failure m))
  | None, None => (w', None)
  end.

(** What a call of [Do] leaves behind. *)
Record DoResult (W V : Type) := mkDoResult {
  do_api : Client;
  do_dest : Dest W V;
  do_response : option Response;
  do_err : option error;
  do_log : list LogLine;
  do_closed : nat
}.
Arguments mkDoResult {W V}.
Arguments do_api {W V}.
Arguments do_dest {W V}.
Arguments do_response {W V}.
Arguments do_err {W V}.
Arguments do_log {W V}.
Arguments do_closed {W V}.

(** [func (api *Client) Do(ctx context.Context, req *http.Request,
    v interface{})], returning [*Response] and [error] *)
Definition Do {W V} `{Writer W} `{Decodable V} (api : Client) (now : time.Time)
    (ctx : Context) (req : http.Request) (v : Dest W V)
  : outcome (DoResult W V) :=
  match client api ctx req with
  | inl err => Returns (mkDoResult api v None (Some err) [] 0)
  | inr resp =>
      match check api now resp with
      | Panics msg => Panics msg
      | Returns (Some e, resp', logs) =>
          let api' := mkClient (client api) (BaseURL api) (UserAgent api)
                               (Logging_Error api) (Error_Rate e) in
          Returns (mkDoResult api' v (Some (makeResponse resp'))
                              (Some (esi_Error e)) logs 1)
      | Returns (None, resp', logs) =>
          let response := makeResponse resp' in
          match v with
          | DestNil => Returns (mkDoResult api v (Some response) None logs 1)
          | DestWriter w =>
              let '(w', _) := io_Copy w (http.Body_ resp') in
              Returns (mkDoResult api (DestWriter w') (Some response) None logs 1)
          | DestValue x =>
              match json.Decode store (http.Body_ resp') x with
              | Panics msg => Panics msg
              | Returns (x', Some err) =>
                  let err := match err with
                             | io_EOF => None
                             | _ => Some err
                             end in
                  Returns (mkDoResult api (DestValue x') (Some response) err logs 1)
              | Returns (x', None) =>
                  Returns (mkDoResult api (DestValue x') (Some response) None logs 1)
              end
          end
      end
  end.

(** A request body that is encoded: [json.Marshal] of the value, or the
    error it reports. *)
Class Marshaler (B : Type) := Marshal : B -> error + string.

(** [http.NewRequest(method, url, body)] *)
Definition http_NewRequest (method urlStr : string) (body : option string)
  : error + http.Request :=
  let method := if String.eqb method "" then "GET" else method in
  if negb (http.validMethod method) then inl http_invalidMethod
  else
    match url.Parse urlStr with
    | None => inl url_ParseError
    | Some u => inr (http.mkRequest method u ∅ body)
    end.

(** [func (api *Client) NewRequest(method, url string, body interface{})],
    returning [*http.Request] or an [error] *)
Definition NewRequest {B} `{Marshaler B} (api : Client) (method url_ : string)
    (body : option B) : error + http.Request :=
  match url.URL_Parse (BaseURL api) url_ with
  | None => inl url_ParseError
  | Some u =>
      let buf :=
        match body with
        | Some b =>
            match Marshal b with
            | inr bytes => inr (Some (bytes +:+ String "010" ""))
            | inl err => inl err
            end
        | None => inr None
        end in
      match buf with
      | inl err => inl err
      | inr buf =>
          match http_NewRequest method (url.URL_String u) buf with
          | inl err => inl err
          | inr req =>
              let h := http.ReqHeader req in
              let h := match body with
                       | Some _ => http.Header_Set h "Content-Type" "application/json"
                       | None => h
                       end in
              let h := http.Header_Set h "Accept" "application/json" in
              let h := if negb (String.eqb (UserAgent api) "")
                       then http.Header_Set h "User-Agent" (UserAgent api)
                       else h in
              inr (http.mkRequest (http.Method req) (http.URL req) h (http.ReqBody req))
          end
      end
  end.

(** ** float64

    A finite [float64] is modelled by the rational number it denotes; every
    operation rounds its exact result to the nearest number with a 53-bit
    significand, ties to even. Overflow to infinity is not modelled: the
    numbers of this package stay below [2^63] in magnitude. *)

Module float64.

(** Round to the nearest integer, ties to even. *)
Definition rne (x : Q) : Z :=
  let n := Qnum x in
  let d := Zpos (Qden x) in
  let q := n / d in
  let r := n mod d in
  if 2 * r <? d then q
  else if d <? 2 * r then q + 1
  else if Z.even q then q else q + 1.

(** The largest [e' <= e] with [2^e' <= x], looking at most [fuel] steps
    down. *)
Fixpoint exponent_from (fuel : nat) (e : Z) (x : Q) : Z :=
  match fuel with
  | O => e
  | S k => if Qle_bool (2 ^ e) x then e else exponent_from k (e - 1) x
  end.

(** The binary exponent of [x]: between -1022 and 1023; below [2^-1022] the
    numbers are subnormal and share the exponent -1022. *)
Definition exponent (x : Q) : Z := exponent_from 2045 1023 (Qabs x).

(** The unit in the last place at [x]: [2^(e-52)] for the exponent [e]. *)
Definition ulp (x : Q) : Q := 2 ^ exponent x * (1 # 4503599627370496).

(** Half the distance from 1 to the next [float64]: [2^-53]. *)
Definition eps : Q := 1 # 9007199254740992.

(** The [float64] nearest to the exact value [x]. *)
Definition round (x : Q) : Q := inject_Z (rne (x / ulp x)) * ulp x.

(** [float64(n)] of an integer. *)
Definition of_int (n : Z) : Q := round (inject_Z n).

Definition add (a b : Q) : Q := round (a + b).

Definition div (a b : Q) : Q := round (a / b).

(** [%.f] of [fmt] ([strconv.FormatFloat(f, 'f', 0, 64)]): the exact value
    rounded to an integer, ties to even, with the sign of the number. *)
Definition format_f0 (f : Q) : string :=
  (if Qle_bool 0 f then "" else "-") +:+ strconv.utoa (Z.abs (rne f)).

End float64.

(** [func (d Duration) Seconds() float64] *)
Definition Duration_Seconds (d : time.Duration) : Q :=
  let sec := Z.quot d time.Second in
  let nsec := Z.rem d time.Second in
  float64.add (float64.of_int sec)
              (float64.div (float64.of_int nsec) (inject_Z 1000000000)).

(** [func (r Rate) String() string]; [now] is the value of [now()]. *)
Definition Rate_String (now : time.Time) (r : Rate) : string :=
  "error rate limit: " +:+ strconv.Itoa (Remaining r)
  +:+ " remaining calls; reset in "
  +:+ float64.format_f0 (Duration_Seconds (time.Sub (Reset r) now)) +:+ "s".

(** The slice expression [s[lo:hi]] of a string. *)
Definition slice (s : string) (lo hi : Z) : outcome string :=
  if (0 <=? lo) && (lo <=? hi) && (hi <=? slen s)
  then Returns (String.substring (Z.to_nat lo) (Z.to_nat (hi - lo)) s)
  else Panics "slice bounds out of range".

(** [func (t Timestamp) MarshalJSON() ([]byte, error)] *)
Definition Timestamp_MarshalJSON (t : Timestamp) : string * option error :=
  (String "034" (time.Format_RFC3339 (Time t) +:+ String "034" ""), None).

(** [func (t *Timestamp) UnmarshalJSON(b []byte) error]: the timestamp
    afterwards and the error. *)
Definition Timestamp_UnmarshalJSON (t : Timestamp) (b : string)
  : outcome (Timestamp * option error) :=
  let s := b in
  match slice s 1 (slen s - 1) with
  | Panics msg => Panics msg
  | Returns s =>
      match time.Parse_RFC3339 s with
      | None => Returns (t, Some time_ParseError)
      | Some parsed => Returns (mkTimestamp parsed, None)
      end
  end.


(** [type FleetSettings struct { IsFreeMove bool `json:"is_free_move,omitempty"`;
    MOTD string `json:"motd,omitempty"` }] *)
Record FleetSettings := mkFleetSettings { IsFreeMove : bool; MOTD : string }.

#[export] Instance FleetSettings_Marshaler : Marshaler FleetSettings :=
  fun v =>
    inr (json.encode_object
           [ (if IsFreeMove v then Some ("is_free_move", "true") else None);
             (if String.eqb (MOTD v) "" then None
              else Some ("motd", json.encode_string (MOTD v))) ]).

(** ** Values used in the tests of the package *)

(** [type foo struct { A string }] of esi_test.go. *)
Record foo := mkFoo { A : string }.

Definition store_foo_field (key : string) (v : json.value) (x : foo)
    (saved : option error) : json.dres foo :=
  match json.find_field ["A"] (json.unquote key) with
  | Some _ =>
      json.dres_bind (json.store_string v (A x) saved)
        (fun a saved => json.Stored (mkFoo a) saved) (fun _ => x)
  | None => json.Stored x saved
  end.

#[export] Instance foo_Decodable : Decodable foo :=
  json.store_struct store_foo_field.

(** [bytes.Buffer] as a writer: a write appends and does not fail. *)
Record Buffer := mkBuffer { buf_bytes : string }.

#[export] Instance Buffer_Writer : Writer Buffer :=
  fun b data => (mkBuffer (buf_bytes b +:+ data), None).

(** The write end of an [io.Pipe] whose read end is closed: every write
    fails and takes nothing. *)
Inductive ClosedPipe := closedPipe.

#[export] Instance ClosedPipe_Writer : Writer ClosedPipe :=
  fun w _ => (w, Some "io: read/write on closed pipe").

(** A transport that answers every request with [resp]. *)
Definition serve (resp : http.Response) : HTTPClient := fun _ _ => inr resp.

(** A response to a GET of [https://esi.evetech.net/] with the given status,
    headers and body. *)
Definition respond (code : Z) (hs : list (string * string)) (body : string)
  : http.Response :=
  http.mkResponse code
    (fold_right (fun kv h => http.Header_Set h kv.1 kv.2) ∅ hs)
    (http.mkBody body None)
    (http.mkRequest "GET" (default url.empty (url.Parse DefaultBaseURL)) ∅ None).

(** The rate headers of [TestDo_errorRateLimit]. *)
Definition rateHeaders : list (string * string) :=
  [("x-esi-error-limit-remain", "60"); ("x-esi-error-limit-reset", "42")].

(** [staticNow] of [TestDo_errorRateLimit]: 2018-01-01T18:00:00Z. *)
Definition staticNow : time.Time :=
  time.mkTime (time.Date_ns 2018 1 1 18 0 0 0) 0.

Definition background : Context := mkContext false.

Definition getRoot : http.Request :=
  http.mkRequest "GET" (default url.empty (url.Parse DefaultBaseURL)) ∅ None.


(** A string between double quotes. *)
Definition quote (s : string) : string := String "034" (s +:+ String "034" "").

(** A response with status 300 whose body is
    [{"Response":{"StatusCode":200}}]. *)
Definition rewritesStatus : http.Response :=
  respond 300 [] ("{" +:+ quote "Response" +:+ ":{" +:+ quote "StatusCode" +:+ ":200}}").

(** An absolute URL on a host that is not the one of the base address. *)
Definition elsewhere : string := "https://evil.example/steal".

(** One nanosecond after [staticNow]. *)
Definition staticNowAndOneNano : Timestamp := mkTimestamp (time.Add staticNow 1).

(** A success that carries the rate headers of a failure. *)
Definition okWithRate : http.Response := respond 200 rateHeaders "".

(** A failure whose reset header is zero. *)
Definition resetZero : http.Response :=
  respond 420 [("x-esi-error-limit-remain", "60"); ("x-esi-error-limit-reset", "0")] "".

(** A failure whose body has a message and a member of the wrong type. *)
Definition mistyped : http.Response :=
  respond 400 [] ("{" +:+ quote "error" +:+ ":" +:+ quote "boom" +:+ "," +:+ quote "HTTPStatusCode" +:+ ":" +:+ quote "x" +:+ "}").

(** The body that [http.Error(w, "Bad Request", 400)] sends. *)
Definition badRequest : http.Response :=
  respond 400 [] ("Bad Request" +:+ String "010" "").

(** A success with a body for a writer. *)
Definition someData : http.Response := respond 200 [] "some data".

(** ** Timestamp as a destination of a decode

    [*Timestamp] implements [json.Unmarshaler]: the decoder hands the bytes
    of the scanned value, whatever its kind, to [UnmarshalJSON]; an error it
    returns stops the decoding, a panic goes through. *)
#[export] Instance Timestamp_Decodable : Decodable Timestamp :=
  fun v t saved =>
    match Timestamp_UnmarshalJSON t (json.raw_of v) with
    | Returns (t', None) => json.Stored t' saved
    | Returns (t', Some err) => json.Aborted t' err
    | Panics msg => json.Panicked t msg
    end.

(** ** Endpoint methods of fleets.go *)

(** What a call of an endpoint method leaves behind: the client (with its
    rate state), the value, the response and the error returned, and the
    lines logged. *)
Record Called (T : Type) := mkCalled {
  c_api : Client;
  c_value : T;
  c_response : option Response;
  c_err : option error;
  c_log : list LogLine
}.
Arguments mkCalled {T}.
Arguments c_api {T}.
Arguments c_value {T}.
Arguments c_response {T}.
Arguments c_err {T}.
Arguments c_log {T}.

(** [func (e *FleetsEndpoint) Kick(ctx, fid, cid)], returning
    [*Response] and [error] *)
Definition Kick (api : Client) (now : time.Time) (ctx : Context) (fid cid : Z)
  : outcome (Called unit) :=
  let u := "v1/fleets/" +:+ strconv.Itoa fid +:+ "/members/" +:+ strconv.Itoa cid
           +:+ "/" in
  match NewRequest (B:=FleetSettings) api "DELETE" u None with
  | inl err => Returns (mkCalled api tt None (Some err) [])
  | inr req =>
      match Do (W:=Buffer) (V:=foo) api now ctx req DestNil with
      | Returns res =>
          Returns (mkCalled (do_api res) tt (do_response res) (do_err res) (do_log res))
      | Panics msg => Panics msg
      end
  end.

(** The body [struct { Name string `json:"name"` }] of the rename methods. *)
Record NameBody := mkNameBody { Name : string }.

#[export] Instance NameBody_Marshaler : Marshaler NameBody :=
  fun v => inr (json.encode_object [Some ("name", json.encode_string (Name v))]).

(** [func (e *FleetsEndpoint) RenameSquad(ctx, fid, sid, name)],
    returning [*Response] and [error] *)
Definition RenameSquad (api : Client) (now : time.Time) (ctx : Context)
    (fid sid : Z) (name : string) : outcome (Called unit) :=
  let u := "v1/fleets/" +:+ strconv.Itoa fid +:+ "/squads/" +:+ strconv.Itoa sid
           +:+ "/" in
  match NewRequest api "PUT" u (Some (mkNameBody name)) with
  | inl err => Returns (mkCalled api tt None (Some err) [])
  | inr req =>
      match Do (W:=Buffer) (V:=foo) api now ctx req DestNil with
      | Returns res =>
          Returns (mkCalled (do_api res) tt (do_response res) (do_err res) (do_log res))
      | Panics msg => Panics msg
      end
  end.

(** [func (e *FleetsEndpoint) RenameWing(ctx, fid, wid, name)],
    returning [*Response] and [error]; the path is formatted from
    [wid, wid]. *)
Definition RenameWing (api : Client) (now : time.Time) (ctx : Context)
    (fid wid : Z) (name : string) : outcome (Called unit) :=
  let u := "v1/fleets/" +:+ strconv.Itoa wid +:+ "/wings/" +:+ strconv.Itoa wid
           +:+ "/" in
  match NewRequest api "PUT" u (Some (mkNameBody name)) with
  | inl err => Returns (mkCalled api tt None (Some err) [])
  | inr req =>
      match Do (W:=Buffer) (V:=foo) api now ctx req DestNil with
      | Returns res =>
          Returns (mkCalled (do_api res) tt (do_response res) (do_err res) (do_log res))
      | Panics msg => Panics msg
      end
  end.

(** The destination [struct { WingID int `json:"wing_id"` }] of [CreateWing]. *)
Record WingIDBody := mkWingIDBody { WingID : Z }.

Definition store_WingIDBody_field (key : string) (v : json.value) (x : WingIDBody)
    (saved : option error) : json.dres WingIDBody :=
  match json.find_field ["wing_id"] (json.unquote key) with
  | Some _ =>
      json.dres_bind (json.store_int v (WingID x) saved)
        (fun n saved => json.Stored (mkWingIDBody n) saved) (fun _ => x)
  | None => json.Stored x saved
  end.

#[export] Instance WingIDBody_Decodable : Decodable WingIDBody :=
  json.store_struct store_WingIDBody_field.

(** [func (e *FleetsEndpoint) CreateWing(ctx, fid) (int, *Response, error)] *)
Definition CreateWing (api : Client) (now : time.Time) (ctx : Context) (fid : Z)
  : outcome (Called Z) :=
  let u := "v1/fleets/" +:+ strconv.Itoa fid +:+ "/wings/" in
  match NewRequest (B:=FleetSettings) api "PUT" u None with
  | inl err => Returns (mkCalled api (-1) None (Some err) [])
  | inr req =>
      match Do (W:=Buffer) api now ctx req (DestValue (mkWingIDBody 0)) with
      | Returns res =>
          match do_err res with
          | Some err =>
              Returns (mkCalled (do_api res) (-1) (do_response res) (Some err) (do_log res))
          | None =>
              let wing := match do_dest res with
                          | DestValue v => WingID v
                          | _ => 0
                          end in
              Returns (mkCalled (do_api res) wing (do_response res) None (do_log res))
          end
      | Panics msg => Panics msg
      end
  end.

(** A request body that cannot be encoded: [struct { A map[interface{}]interface{} }]
    of [TestNewRequest_invalidJSON]. *)
Inductive Unsupported := unsupported.

#[export] Instance Unsupported_Marshaler : Marshaler Unsupported :=
  fun _ => inl json_UnsupportedTypeError.

(** A remaining header too large for an [int]. *)
Definition tooMany : http.Response :=
  respond 420 [("x-esi-error-limit-remain", "99999999999999999999")] "".

(** A failure whose reset header is negative. *)
Definition resetNegative : http.Response :=
  respond 420 [("x-esi-error-limit-reset", "-30")] "".

(** A success that carries a deprecation warning. *)
Definition deprecated : http.Response :=
  respond 200 [("warning", "299 - This route is deprecated.")] "".

(** A transport that answers every request with 204 and no body; the
    response records the request it answers, as [net/http] does. *)
Definition noContent : HTTPClient :=
  fun _ req => inr (http.mkResponse 204 ∅ (http.mkBody "" None) req).

(** The path of the request that the response of a successful call answers. *)
Definition requested_path {T} (o : outcome (Called T)) : option string :=
  match o with
  | Returns c =>
      match c_err c, c_response c with
      | None, Some r => Some (url.Path (http.URL (http.Request_ (http_Response r))))
      | _, _ => None
      end
  | Panics _ => None
  end.

(** Bytes that stand for themselves inside a JSON string: no quote, no
    backslash, no control byte. *)
Definition plain (c : ascii) : bool :=
  negb (Ascii.eqb c "034") && negb (Ascii.eqb c "\") && negb (byte_val c <? 32).

(** A store that did not panic. *)
Definition no_panic {T} (r : json.dres T) : Prop :=
  match r with
  | json.Panicked _ _ => False
  | _ => True
  end.

(** The client with its rate state set to [r]. *)
Definition with_rate (api : Client) (r : Rate) : Client :=
  mkClient (client api) (BaseURL api) (UserAgent api) (Logging_Error api) r.

(** * Properties *)

(** Linear arithmetic with division and remainder by constants. *)
Ltac div_lia := Z.to_euclidean_division_equations; lia.

(** Linear arithmetic over boolean comparisons. *)
Ltac bool_lia :=
  rewrite ?andb_true_iff, ?orb_true_iff, ?andb_false_iff, ?orb_false_iff,
          ?negb_true_iff, ?negb_false_iff,
          ?Z.leb_le, ?Z.ltb_lt, ?Z.leb_gt, ?Z.ltb_ge, ?Z.eqb_eq, ?Z.eqb_neq in *;
  lia.

(** ** Decoding never panics for the targets of the package *)


Lemma dres_bind_no_panic {T U} (m : json.dres T) k (back : T -> U) :
  no_panic m -> (forall t sv, no_panic (k t sv)) ->
  no_panic (json.dres_bind m k back).
Proof. destruct m; simpl; auto. Qed.

Lemma store_int_no_panic v old saved : no_panic (json.store_int v old saved).
Proof.
  destruct v; simpl; auto.
  destruct (strconv.ParseInt lit) as [n [e|]]; simpl; auto.
Qed.

Lemma store_string_no_panic v old saved : no_panic (json.store_string v old saved).
Proof. destruct v; simpl; auto. Qed.

Lemma store_members_no_panic {T} (field : string -> json.value -> T -> option error -> json.dres T) :
  (forall k v t sv, no_panic (field k v t sv)) ->
  forall kvs t sv, no_panic (json.store_members field kvs t sv).
Proof.
  intros Hf kvs. induction kvs as [|[k v] rest IH]; intros t sv; simpl; auto.
  specialize (Hf k v t sv). destruct (field k v t sv); simpl in *; auto.
Qed.

Lemma store_struct_no_panic {T} (field : string -> json.value -> T -> option error -> json.dres T) :
  (forall k v t sv, no_panic (field k v t sv)) ->
  forall v t sv, no_panic (json.store_struct field v t sv).
Proof.
  intros Hf v t sv. destruct v; simpl; auto.
  now apply store_members_no_panic.
Qed.

Lemma store_Response_field_no_panic k v r sv :
  no_panic (store_Response_field k v r sv).
Proof.
  unfold store_Response_field.
  destruct (json.find_field _ _); simpl; auto.
  repeat case_match; simpl; auto.
  apply dres_bind_no_panic; [apply store_int_no_panic | simpl; auto].
Qed.

Lemma store_Error_field_no_panic k v st sv :
  no_panic (store_Error_field k v st sv).
Proof.
  unfold store_Error_field. destruct st as [e r].
  destruct (json.find_field _ _); simpl; auto.
  repeat case_match; simpl; auto;
    try (apply dres_bind_no_panic; simpl; auto;
         first [ apply store_int_no_panic | apply store_string_no_panic
               | apply store_members_no_panic; apply store_Response_field_no_panic ]).
Qed.

Lemma finish_returns {T} (r : json.dres T) :
  no_panic r -> exists t err, json.finish r = Returns (t, err).
Proof. destruct r; simpl; intros H; [eauto | eauto | destruct H]. Qed.

Lemma Unmarshal_Error_returns data st :
  exists st' err, Unmarshal_Error data st = Returns (st', err).
Proof.
  unfold Unmarshal_Error, json.Unmarshal.
  destruct (json.parse data); eauto.
  case_match; eauto.
  apply finish_returns, store_struct_no_panic, store_Error_field_no_panic.
Qed.

(** [makeError] always produces an error value, and the status code it
    records is the one the response holds when [makeError] returns. *)
Lemma makeError_returns now r :
  exists e r', makeError now r = Returns (e, r') /\
               HTTPStatusCode e = http.StatusCode r' /\
               Error_Rate e = parseRate now r'.
Proof.
  unfold makeError, http.ReadAll.
  destruct (http.body_err (http.Body_ r)).
  - eexists _, _. split; [reflexivity | simpl; auto].
  - destruct (Unmarshal_Error_returns (http.body_data (http.Body_ r))
                (mkError PtrToResponse 0 "" Rate_zero, r)) as ([e r'] & err & ->).
    eexists _, _. split; [reflexivity | simpl; auto].
Qed.

(** The classifier: success exactly for the status codes 200..299. *)
Lemma check_success_iff api now resp :
  (exists resp' logs, check api now resp = Returns (None, resp', logs)) <->
  200 <= http.StatusCode resp <= 299.
Proof.
  unfold check. split.
  - intros (resp' & logs & H).
    destruct ((200 <=? http.StatusCode resp) && (http.StatusCode resp <=? 299)) eqn:E.
    + apply andb_true_iff in E. lia.
    + destruct (makeError now resp) as [[e r']|]; discriminate.
  - intros H.
    replace ((200 <=? http.StatusCode resp) && (http.StatusCode resp <=? 299))
      with true by (symmetry; apply andb_true_iff; lia).
    eauto.
Qed.

Lemma check_failure api now resp :
  ~ (200 <= http.StatusCode resp <= 299) ->
  exists e resp', makeError now resp = Returns (e, resp') /\
                  check api now resp = Returns (Some e, resp', []).
Proof.
  intros H. unfold check.
  replace ((200 <=? http.StatusCode resp) && (http.StatusCode resp <=? 299))
    with false by (symmetry; apply andb_false_iff; lia).
  destruct (makeError_returns now resp) as (e & r' & -> & _). eauto.
Qed.

Example check_200_299_300 :
  (exists r l, check (NewClient (serve (respond 200 [] ""))) staticNow
                 (respond 200 [] "") = Returns (None, r, l)) /\
  (exists r l, check (NewClient (serve (respond 299 [] ""))) staticNow
                 (respond 299 [] "") = Returns (None, r, l)) /\
  (exists e r, check (NewClient (serve (respond 300 [] ""))) staticNow
                 (respond 300 [] "") = Returns (Some e, r, []) /\
               HTTPStatusCode e = 300).
Proof. repeat split; vm_compute; eauto. Qed.

(** C1, at the failing input: a response with status 300 whose body is
    [{"Response":{"StatusCode":200}}] is classified as a failure, but the
    error built for it carries 200, not 300: decoding the body into the
    [Error] follows its [Response] pointer and overwrites the status code of
    the response before it is recorded. *)
Theorem check_300_carries_rewritten_status :
  exists e resp',
    check (NewClient (serve rewritesStatus)) staticNow rewritesStatus
    = Returns (Some e, resp', []) /\
    HTTPStatusCode e = 200 /\ http.StatusCode resp' = 200.
Proof. vm_compute. eauto. Qed.

(** ** Rate state *)


(** C2, as amended: [Do] writes the rate state exactly on the failure path.
    When the transport fails, the failure is returned as it is, with no
    response, and the client is unchanged. When the exchange completes with
    a status outside 200..299, the rate state becomes the rate snapshot of
    the error, parsed from the response at that moment. When it completes
    with a status in 200..299, the client, rate state included, is
    unchanged (a panic can only come from decoding into the destination). *)
Theorem Do_writes_rate_state_on_failure_only {W V} `{Writer W} `{Decodable V}
    (api : Client) (now : time.Time) (ctx : Context) (req : http.Request)
    (v : Dest W V) :
  match client api ctx req with
  | inl err => Do api now ctx req v = Returns (mkDoResult api v None (Some err) [] 0)
  | inr resp =>
      if (200 <=? http.StatusCode resp) && (http.StatusCode resp <=? 299) then
        match Do api now ctx req v with
        | Returns res => do_api res = api
        | Panics _ => exists x, v = DestValue x
        end
      else
        exists e resp',
          makeError now resp = Returns (e, resp') /\
          Error_Rate e = parseRate now resp' /\
          Do api now ctx req v =
            Returns (mkDoResult (with_rate api (parseRate now resp')) v
                       (Some (makeResponse resp')) (Some (esi_Error e)) [] 1)
  end.
Proof.
  unfold Do. destruct (client api ctx req) as [err|resp]; [reflexivity|].
  destruct ((200 <=? http.StatusCode resp) && (http.StatusCode resp <=? 299)) eqn:E.
  - unfold check. rewrite E. destruct v as [|w|x]; simpl.
    + reflexivity.
    + destruct (io_Copy w (http.Body_ resp)). reflexivity.
    + destruct (json.Decode store (http.Body_ resp) x) as [[x' [err|]]|]; simpl; eauto.
  - destruct (check_failure api now resp) as (e & resp' & He & Hc).
    { apply andb_false_iff in E. lia. }
    destruct (makeError_returns now resp) as (e1 & r1 & He1 & _ & Hr).
    rewrite He in He1. injection He1 as <- <-.
    exists e, resp'. rewrite Hc, Hr. auto.
Qed.

(** C2, as stated, fails: after a completed exchange with status 200 whose
    response carries the rate headers, the rate state is still the zero
    value and not the rate of that response. *)
Lemma Do_success_leaves_rate_state :
  exists res,
    Do (W:=Buffer) (V:=foo) (NewClient (serve okWithRate)) staticNow background
       getRoot DestNil = Returns res /\
    mu_Rate (do_api res) = Rate_zero /\
    parseRate staticNow okWithRate
      = mkRate 60 (time.Add staticNow (42 * time.Second)) /\
    mu_Rate (do_api res) <> parseRate staticNow okWithRate.
Proof.
  eexists. split; [reflexivity|]. split; [reflexivity|].
  split; [vm_compute; reflexivity|]. vm_compute. discriminate.
Qed.

(** ** parseRate *)

Lemma Atoi_ok_nonempty s n : strconv.Atoi s = (n, None) -> s <> "".
Proof. intros H ->. discriminate. Qed.

Lemma ParseUint_loop_syntax s : forall n v,
  strconv.ParseUint_loop s n = (v, Some strconv.ErrSyntax) -> v = 0.
Proof.
  induction s as [|c r IH]; simpl; intros n v H; [discriminate|].
  repeat case_match; try discriminate; eauto; congruence.
Qed.

Lemma Atoi_syntax_zero s v :
  strconv.Atoi s = (v, Some strconv.ErrSyntax) -> v = 0.
Proof.
  unfold strconv.Atoi, strconv.ParseInt. destruct s as [|c r]; [congruence|].
  destruct (strconv.ParseUint _) as [un [[]|]]; try congruence;
    repeat case_match; congruence.
Qed.

Lemma parseRate_Remaining now r :
  Remaining (parseRate now r) =
  let sR := http.Header_Get (http.Header_ r) headerErrorRateRemaining in
  if String.eqb sR "" then 0 else fst (strconv.Atoi sR).
Proof.
  unfold parseRate. cbv zeta.
  destruct (String.eqb (http.Header_Get _ headerErrorRateRemaining) ""),
           (String.eqb (http.Header_Get _ headerErrorRateReset) ""),
           (fst (strconv.Atoi (http.Header_Get _ headerErrorRateReset)) =? 0);
    reflexivity.
Qed.

Lemma parseRate_Reset now r :
  Reset (parseRate now r) =
  let sS := http.Header_Get (http.Header_ r) headerErrorRateReset in
  if String.eqb sS "" then time.zero
  else if fst (strconv.Atoi sS) =? 0 then time.zero
  else time.Add now (time.Duration_mul (fst (strconv.Atoi sS)) time.Second).
Proof.
  unfold parseRate. cbv zeta.
  destruct (String.eqb (http.Header_Get _ headerErrorRateRemaining) ""),
           (String.eqb (http.Header_Get _ headerErrorRateReset) ""),
           (fst (strconv.Atoi (http.Header_Get _ headerErrorRateReset)) =? 0);
    reflexivity.
Qed.




(** ** Do: the destination *)

(** C4: for a response with a status in 200..299 whose body is empty, [Do]
    with a destination that is decoded into returns no error and leaves the
    destination as it was. *)
Theorem Do_empty_body_leaves_destination {W V} `{Writer W} `{Decodable V}
    (api : Client) (now : time.Time) (ctx : Context) (req : http.Request)
    (resp : http.Response) (x : V) :
  client api ctx req = inr resp ->
  200 <= http.StatusCode resp <= 299 ->
  http.Body_ resp = http.mkBody "" None ->
  exists res,
    Do api now ctx req (DestValue (W:=W) x) = Returns res /\
    do_err res = None /\
    do_dest res = DestValue x /\
    do_response res = Some (makeResponse resp).
Proof.
  intros Hc Hs Hb. unfold Do, check. rewrite Hc.
  replace ((200 <=? http.StatusCode resp) && (http.StatusCode resp <=? 299))
    with true by (symmetry; apply andb_true_iff; lia).
  rewrite Hb. simpl. eauto.
Qed.

Lemma Do_empty_body_leaves_destination_witness :
  exists res,
    Do (W:=Buffer) (NewClient (serve (respond 200 [] ""))) staticNow background
       getRoot (DestValue (mkFoo "before")) = Returns res /\
    do_err res = None /\
    do_dest res = DestValue (mkFoo "before") /\
    do_response res = Some (makeResponse (respond 200 [] "")).
Proof.
  apply (Do_empty_body_leaves_destination (W:=Buffer)
           (NewClient (serve (respond 200 [] ""))) staticNow background getRoot
           (respond 200 [] "") (mkFoo "before")).
  - reflexivity.
  - simpl. lia.
  - reflexivity.
Defined.

(** With a body, the destination is decoded into ([TestDo]). *)
Example Do_decodes_body :
  exists res,
    Do (W:=Buffer) (NewClient (serve (respond 200 [] ("{" +:+ quote "A" +:+ ":" +:+ quote "a" +:+ "}")))) staticNow
       background getRoot (DestValue (mkFoo "")) = Returns res /\
    do_err res = None /\ do_dest res = DestValue (mkFoo "a").
Proof. eexists. repeat split. Qed.

(** For every response with a status in 200..299 and every writer as the
    destination, [Do] returns no error: what [io.Copy] reports is dropped. *)
Lemma Do_writer_returns_nil {W V} `{Writer W} `{Decodable V}
    (api : Client) (now : time.Time) (ctx : Context) (req : http.Request)
    (resp : http.Response) (w : W) :
  client api ctx req = inr resp ->
  200 <= http.StatusCode resp <= 299 ->
  exists res,
    Do api now ctx req (DestWriter (V:=V) w) = Returns res /\
    do_err res = None /\
    do_dest res = DestWriter (fst (io_Copy w (http.Body_ resp))).
Proof.
  intros Hc Hs. unfold Do, check. rewrite Hc.
  replace ((200 <=? http.StatusCode resp) && (http.StatusCode resp <=? 299))
    with true by (symmetry; apply andb_true_iff; lia).
  destruct (io_Copy w (http.Body_ resp)). simpl. eauto.
Qed.

(** C8, at the failing input: the response is a 200 with the body
    [some data] and the destination a writer whose writes fail. The copy of
    the body fails, and [Do] returns the response with a nil error. *)
Theorem Do_drops_copy_failure :
  exists res,
    Do (V:=foo) (NewClient (serve someData)) staticNow background getRoot
       (DestWriter closedPipe) = Returns res /\
    snd (io_Copy closedPipe (http.Body_ someData))
      = Some (io_failure "io: read/write on closed pipe") /\
    do_err res = None.
Proof. eexists. repeat split. Qed.

(** The sibling path does return what the decoder reports
    ([TestDo_jsonSyntaxError]). *)
Example Do_returns_decode_failure :
  exists res,
    Do (W:=Buffer) (NewClient (serve (respond 200 [] "invalid json"))) staticNow
       background getRoot (DestValue (mkFoo "")) = Returns res /\
    do_err res = Some json_SyntaxError.
Proof. eexists. repeat split. Qed.

(** ** makeError: the message *)

Lemma Unmarshal_Error_invalid data st :
  json.Valid data = false ->
  Unmarshal_Error data st = Returns (st, Some json_SyntaxError).
Proof.
  unfold Unmarshal_Error, json.Unmarshal, json.Valid.
  destruct (json.parse data); try reflexivity.
  intros ->. reflexivity.
Qed.



(** The scenario of [TestDo_errorRateLimit]. *)
Example makeError_some_error :
  exists e r',
    makeError staticNow (respond 400 rateHeaders ("{" +:+ quote "error" +:+ ":" +:+ quote "some error" +:+ "}"))
      = Returns (e, r') /\
    Error_Error e = "some error" /\ HTTPStatusCode e = 400 /\
    Error_Rate e = mkRate 60 (time.Add staticNow (42 * time.Second)).
Proof. eexists _, _. split; [reflexivity|]. repeat split. Qed.


(** ** Timestamp.UnmarshalJSON *)

Lemma length_lt_2 (b : string) :
  (String.length b < 2)%nat -> b = "" \/ exists c, b = String c "".
Proof.
  destruct b as [|c [|c' r]]; simpl; intros; eauto. lia.
Qed.

(** C10, at the failing inputs: on every input shorter than two bytes the
    slice expression [s[1 : len(s)-1]] is out of bounds and
    [Timestamp.UnmarshalJSON] panics instead of returning an error. *)
Theorem Timestamp_UnmarshalJSON_short_input_panics (t : Timestamp) (b : string) :
  (String.length b < 2)%nat ->
  Timestamp_UnmarshalJSON t b = Panics "slice bounds out of range".
Proof.
  intros H. destruct (length_lt_2 b H) as [-> | [c ->]]; reflexivity.
Qed.

Lemma Timestamp_UnmarshalJSON_short_input_panics_witness :
  Timestamp_UnmarshalJSON (mkTimestamp time.zero) "1"
    = Panics "slice bounds out of range" /\
  Timestamp_UnmarshalJSON (mkTimestamp time.zero) ""
    = Panics "slice bounds out of range".
Proof.
  split; apply Timestamp_UnmarshalJSON_short_input_panics; simpl; lia.
Defined.

(** Inputs of two bytes or more never panic: they decode or fail with a
    parse error, and the timestamp is written only on success. *)
Lemma Timestamp_UnmarshalJSON_long_input (t : Timestamp) (b : string) :
  (2 <= String.length b)%nat ->
  Timestamp_UnmarshalJSON t b = Returns (t, Some time_ParseError) \/
  exists parsed, Timestamp_UnmarshalJSON t b = Returns (mkTimestamp parsed, None).
Proof.
  intros H. unfold Timestamp_UnmarshalJSON, slice, slen.
  replace ((0 <=? 1) && (1 <=? Z.of_nat (String.length b) - 1)
           && (Z.of_nat (String.length b) - 1 <=? Z.of_nat (String.length b)))
    with true.
  - destruct (time.Parse_RFC3339 _); eauto.
  - symmetry. rewrite !andb_true_iff, !Z.leb_le. lia.
Qed.

(** The cases of time_test.go. *)
Example Timestamp_UnmarshalJSON_tests :
  Timestamp_UnmarshalJSON (mkTimestamp staticNow) (quote "0001-01-01T00:00:00Z")
    = Returns (mkTimestamp time.zero, None) /\
  Timestamp_UnmarshalJSON (mkTimestamp staticNow) (quote "Mon, 02 Jan 2006 15:04:05 MST")
    = Returns (mkTimestamp staticNow, Some time_ParseError).
Proof. split; reflexivity. Qed.

(** ** NewRequest: the URL *)

Lemma parse_nofrag_opaque s u :
  url.parse_nofrag s = Some u -> url.Scheme u = "" -> url.Opaque u = "".
Proof.
  unfold url.parse_nofrag. intros H.
  repeat (case_match; simplify_eq/=; try done).
  - destruct (url.getScheme s) as [[sch rest]|]; simplify_eq/=.
    revert H. repeat (case_match; simplify_eq/=; try done);
      try (intros; simplify_eq/=; done).
    all: try (destruct (url.parseAuthority _) as [[us ho]|]; simplify_eq/=;
              repeat (case_match; simplify_eq/=; try done);
              intros; simplify_eq/=; done).
    intros [= <-]. simpl. intros Hs. rewrite Hs in *. simpl in *.
    rewrite andb_false_r in *. done.
Qed.

Example NewRequest_examples :
  option_map url.URL_String (url.URL_Parse (BaseURL (NewClient (serve okWithRate))) "/foo")
    = Some "https://esi.evetech.net/foo" /\
  option_map url.URL_String
    (url.URL_Parse (BaseURL (NewClient (serve okWithRate))) "v1/fleets/42/")
    = Some "https://esi.evetech.net/v1/fleets/42/" /\
  url.URL_Parse (BaseURL (NewClient (serve okWithRate))) ":" = None.
Proof. repeat split. Qed.

Lemma Parse_opaque s u :
  url.Parse s = Some u -> url.Scheme u = "" -> url.Opaque u = "".
Proof.
  unfold url.Parse. destruct (url.cut "#" s) as [[a frag] found].
  destruct (url.parse_nofrag a) as [u0|] eqn:E; simpl; [|done].
  destruct (url.valid_escapes frag); [|done].
  intros [= <-]. simpl. eapply parse_nofrag_opaque; eauto.
Qed.

Lemma NewRequest_hands_on_resolved {B} `{Marshaler B} (api : Client)
    (method P : string) (body : option B) (req : http.Request) :
  NewRequest api method P body = inr req ->
  exists u, url.URL_Parse (BaseURL api) P = Some u /\
            url.Parse (url.URL_String u) = Some (http.URL req).
Proof.
  unfold NewRequest, http_NewRequest.
  destruct (url.URL_Parse (BaseURL api) P) as [u|]; [|done].
  intros Hreq. exists u. split; [done|].
  repeat (case_match; simplify_eq/=; try done).
Qed.




(** [TestNewRequest], with the body of [TestFleetsEndpoint_Update]. *)
Example NewRequest_encodes_body :
  exists req,
    NewRequest (NewClient (serve okWithRate)) "PUT" "/foo"
               (Some (mkFleetSettings true "some motd")) = inr req /\
    url.URL_String (http.URL req) = "https://esi.evetech.net/foo" /\
    http.ReqBody req
      = Some ("{" +:+ quote "is_free_move" +:+ ":true," +:+ quote "motd" +:+ ":"
              +:+ quote "some motd" +:+ "}" +:+ String "010" "") /\
    http.Header_Get (http.ReqHeader req) "User-Agent" = DefaultUserAgent /\
    http.Header_Get (http.ReqHeader req) "Content-Type" = "application/json".
Proof. eexists. split; [reflexivity|]. repeat split. Qed.

Example NewRequest_invalid_method :
  NewRequest (B:=FleetSettings) (NewClient (serve okWithRate)) "INVALID METHOD" "" None
    = inl http_invalidMethod.
Proof. reflexivity. Qed.

(** ** float64 rounding *)

Lemma rne_spec (x : Q) :
  (- (1 # 2) <= inject_Z (float64.rne x) - x <= 1 # 2)%Q.
Proof.
  destruct x as [n d]. unfold float64.rne. simpl Qnum. simpl Qden.
  pose proof (Z.div_mod n (Zpos d) ltac:(lia)) as Hdm.
  pose proof (Z.mod_pos_bound n (Zpos d) ltac:(lia)) as Hr.
  set (q := n / Zpos d) in *. set (r := n mod Zpos d) in *.
  assert (Hgen : forall k, -(Zpos d) <= 2 * (k * Zpos d - n) <= Zpos d ->
            (- (1 # 2) <= inject_Z k - (n # d) <= 1 # 2)%Q).
  { intros k Hk. unfold Qle, Qminus, Qplus, Qopp, inject_Z. simpl. lia. }
  apply Hgen.
  destruct (Z.ltb_spec (2 * r) (Zpos d)); [lia|].
  destruct (Z.ltb_spec (Zpos d) (2 * r)); [lia|].
  destruct (Z.even q); lia.
Qed.

Lemma exponent_from_le fuel : forall e (x : Q),
  (2 ^ (e - Z.of_nat fuel) <= x)%Q ->
  (2 ^ (float64.exponent_from fuel e x) <= x)%Q.
Proof.
  induction fuel as [|k IH]; intros e x H; simpl.
  - rewrite Z.sub_0_r in H. exact H.
  - destruct (Qle_bool (2 ^ e) x) eqn:E.
    + now apply Qle_bool_iff.
    + apply IH. replace (e - 1 - Z.of_nat k) with (e - Z.of_nat (S k)) by lia.
      exact H.
Qed.

Lemma tiny : (2 ^ (1023 - Z.of_nat 2045) <= 1 # 10000000000)%Q.
Proof. vm_compute. discriminate. Qed.

Lemma exponent_le (x : Q) :
  (1 # 10000000000 <= Qabs x)%Q -> (2 ^ float64.exponent x <= Qabs x)%Q.
Proof.
  intros H. apply exponent_from_le. eapply Qle_trans; [apply tiny | exact H].
Qed.


Lemma ulp_pos x : (0 < float64.ulp x)%Q.
Proof.
  unfold float64.ulp.
  assert (0 < 2 ^ float64.exponent x)%Q by (apply Qpower_0_lt; reflexivity).
  lra.
Qed.

Lemma ulp_le (x a : Q) :
  (Qabs x == a)%Q -> (1 # 10000000000 <= a)%Q ->
  (float64.ulp x <= 2 * float64.eps * a)%Q.
Proof.
  intros Ha H. unfold float64.ulp, float64.eps.
  assert (He : (2 ^ float64.exponent x <= a)%Q).
  { rewrite <- Ha. apply exponent_le. rewrite Ha. exact H. }
  lra.
Qed.

(** The rounding error of [round] is at most half a unit in the last place. *)
Lemma round_ulp (x : Q) :
  (- (1 # 2) * float64.ulp x <= float64.round x - x <= (1 # 2) * float64.ulp x)%Q.
Proof.
  unfold float64.round. pose proof (ulp_pos x) as Hu.
  set (u := float64.ulp x) in *.
  pose proof (rne_spec (x / u)) as Hr.
  set (k := inject_Z (float64.rne (x / u))) in *.
  assert (Hx : (x == (x / u) * u)%Q) by (field; lra).
  set (y := (x / u)%Q) in *.
  assert (H1 : (x <= y * u)%Q) by (rewrite <- Hx; apply Qle_refl).
  assert (H2 : (y * u <= x)%Q) by (rewrite <- Hx; apply Qle_refl).
  destruct Hr as [Hr1 Hr2].
  assert (H3 : (0 <= (k - y + (1 # 2)) * u)%Q) by (apply Qmult_le_0_compat; lra).
  assert (H4 : (0 <= ((1 # 2) - (k - y)) * u)%Q) by (apply Qmult_le_0_compat; lra).
  split; lra.
Qed.

Lemma round_pos (x : Q) :
  (1 # 10000000000 <= x)%Q ->
  ((1 - float64.eps) * x <= float64.round x <= (1 + float64.eps) * x)%Q.
Proof.
  intros H. pose proof (round_ulp x) as Hr.
  assert (Ha : (Qabs x == x)%Q) by (apply Qabs_pos; lra).
  pose proof (ulp_le x x Ha H) as Hu.
  unfold float64.eps in *. lra.
Qed.

Lemma round_neg (x : Q) :
  (x <= - (1 # 10000000000))%Q ->
  ((1 + float64.eps) * x <= float64.round x <= (1 - float64.eps) * x)%Q.
Proof.
  intros H. pose proof (round_ulp x) as Hr.
  assert (Ha : (Qabs x == - x)%Q) by (apply Qabs_neg; lra).
  assert (Hb : (1 # 10000000000 <= - x)%Q) by lra.
  pose proof (ulp_le x (- x) Ha Hb) as Hu.
  unfold float64.eps in *. lra.
Qed.

Lemma rne_num_0 (y : Q) : Qnum y = 0 -> float64.rne y = 0.
Proof.
  intros H. unfold float64.rne. rewrite H. rewrite Zdiv_0_l, Zmod_0_l.
  reflexivity.
Qed.

Lemma round_zero (x : Q) : (x == 0)%Q -> (float64.round x == 0)%Q.
Proof.
  intros H. unfold float64.round.
  assert (H0 : Qnum x = 0) by (unfold Qeq in H; simpl in H; lia).
  rewrite rne_num_0; [ring|].
  set (u := float64.ulp x).
  change (Qnum (x / u)) with (Qnum x * Qnum (/ u)). rewrite H0. reflexivity.
Qed.

(** ** Duration.Seconds and the rendering of a rate *)

Lemma of_int_bounds (n : Z) :
  (n = 0 -> (float64.of_int n == 0)%Q) /\
  (0 < n -> ((1 - float64.eps) * inject_Z n <= float64.of_int n <= (1 + float64.eps) * inject_Z n)%Q) /\
  (n < 0 -> ((1 + float64.eps) * inject_Z n <= float64.of_int n <= (1 - float64.eps) * inject_Z n)%Q).
Proof.
  unfold float64.of_int. split; [|split]; intros Hn.
  - subst n. now apply round_zero.
  - apply round_pos.
    assert (Hq : (inject_Z 1 <= inject_Z n)%Q) by (rewrite <- Zle_Qle; lia).
    change (inject_Z 1) with 1%Q in Hq. lra.
  - apply round_neg.
    assert (Hq : (inject_Z n <= inject_Z (-1))%Q) by (rewrite <- Zle_Qle; lia).
    change (inject_Z (-1)) with (-1)%Q in Hq. lra.
Qed.

Lemma quot_rem_Second (d : Z) :
  let sec := Z.quot d time.Second in
  let nsec := Z.rem d time.Second in
  d = 1000000000 * sec + nsec /\
  (0 <= d -> 0 <= sec /\ 0 <= nsec < 1000000000) /\
  (d <= 0 -> sec <= 0 /\ -1000000000 < nsec <= 0).
Proof.
  unfold time.Second. Z.to_euclidean_division_equations. lia.
Qed.

Lemma round_nonneg (x : Q) :
  (x == 0 \/ 1 # 10000000000 <= x)%Q ->
  ((1 - float64.eps) * x <= float64.round x <= (1 + float64.eps) * x)%Q.
Proof.
  intros [H|H]; [|now apply round_pos].
  pose proof (round_zero x H) as H0. unfold float64.eps. lra.
Qed.

Lemma round_nonpos (x : Q) :
  (x == 0 \/ x <= - (1 # 10000000000))%Q ->
  ((1 + float64.eps) * x <= float64.round x <= (1 - float64.eps) * x)%Q.
Proof.
  intros [H|H]; [|now apply round_neg].
  pose proof (round_zero x H) as H0. unfold float64.eps. lra.
Qed.

Lemma inject_Z_ge_1 (n : Z) : 0 <= n -> (inject_Z n == 0 \/ 1 <= inject_Z n)%Q.
Proof.
  intros H. destruct (Z.eq_dec n 0) as [->|Hn]; [left; reflexivity|right].
  change 1%Q with (inject_Z 1). rewrite <- Zle_Qle. lia.
Qed.

Lemma inject_Z_le_m1 (n : Z) : n <= 0 -> (inject_Z n == 0 \/ inject_Z n <= -1)%Q.
Proof.
  intros H. destruct (Z.eq_dec n 0) as [->|Hn]; [left; reflexivity|right].
  change (-1)%Q with (inject_Z (-1)). rewrite <- Zle_Qle. lia.
Qed.

(** The seconds of a duration as a [float64]: the sign is the sign of the
    duration, and the value, in nanoseconds, is within 4100 of the
    duration. *)
Lemma Duration_Seconds_bounds (d : Z) :
  MinInt64 <= d <= MaxInt64 ->
  let f := Duration_Seconds d in
  (d < 0 -> (f < 0)%Q) /\ (0 <= d -> (0 <= f)%Q) /\
  (- 4100 <= 1000000000 * f - inject_Z d <= 4100)%Q.
Proof.
  intros Hd. unfold Duration_Seconds.
  pose proof (quot_rem_Second d) as Hqr. cbv zeta in Hqr.
  set (sec := Z.quot d time.Second) in *. set (nsec := Z.rem d time.Second) in *.
  destruct Hqr as (Hdq & Hpos & Hneg).
  assert (Hsec : -9223372037 <= sec <= 9223372037)
    by (unfold MinInt64, MaxInt64 in Hd; lia).
  assert (HD : (inject_Z d == 1000000000 * inject_Z sec + inject_Z nsec)%Q).
  { rewrite Hdq, inject_Z_plus, inject_Z_mult. reflexivity. }
  assert (HS : (- 9223372037 <= inject_Z sec <= 9223372037)%Q).
  { split.
    - change (inject_Z (-9223372037) <= inject_Z sec)%Q. rewrite <- Zle_Qle. lia.
    - change (inject_Z sec <= inject_Z 9223372037)%Q. rewrite <- Zle_Qle. lia. }
  unfold float64.add, float64.div, float64.of_int. cbv zeta.
  set (S := inject_Z sec) in *. set (N := inject_Z nsec) in *.
  set (a := float64.round S). set (b := float64.round N).
  set (y := (b / inject_Z 1000000000)%Q).
  assert (Hy : (y * 1000000000 == b)%Q).
  { unfold y. change (inject_Z 1000000000) with 1000000000%Q. field. }
  set (c := float64.round y). set (f := float64.round (a + c)).
  destruct (Z_le_gt_dec 0 d) as [Hd0|Hd0].
  - destruct (Hpos Hd0) as (Hs0 & Hn0).
    assert (HN : (0 <= N < 1000000000)%Q).
    { unfold N. split.
      - change (inject_Z 0 <= inject_Z nsec)%Q. rewrite <- Zle_Qle. lia.
      - change (inject_Z nsec < inject_Z 1000000000)%Q. rewrite <- Zlt_Qlt. lia. }
    assert (HS0 : (S == 0 \/ 1 <= S)%Q) by (apply inject_Z_ge_1; lia).
    assert (HN0 : (N == 0 \/ 1 <= N)%Q) by (apply inject_Z_ge_1; lia).
    assert (Ha : ((1 - float64.eps) * S <= a <= (1 + float64.eps) * S)%Q)
      by (apply round_nonneg; destruct HS0; [left|right]; lra).
    assert (Hb : ((1 - float64.eps) * N <= b <= (1 + float64.eps) * N)%Q)
      by (apply round_nonneg; destruct HN0; [left|right]; lra).
    unfold float64.eps in *.
    assert (Hy0 : (y == 0 \/ 1 # 10000000000 <= y)%Q).
    { destruct HN0 as [Hz|Hz]; [left|right]; lra. }
    pose proof (round_nonneg y Hy0) as Hc. fold c in Hc. unfold float64.eps in Hc.
    assert (Hac : (a + c == 0 \/ 1 # 10000000000 <= a + c)%Q).
    { destruct HS0 as [Hz|Hz].
      - destruct Hy0 as [Hy0|Hy0]; [left|right]; lra.
      - right. destruct Hy0 as [Hy0|Hy0]; lra. }
    pose proof (round_nonneg (a + c) Hac) as Hf. fold f in Hf. unfold float64.eps in Hf.
    split; [lia|]. split; [intros _; destruct Hy0; lra|].
    split; lra.
  - assert (Hd1 : d <= 0) by lia. destruct (Hneg Hd1) as (Hs0 & Hn0).
    assert (HN : (- 1000000000 < N <= 0)%Q).
    { unfold N. split.
      - change (inject_Z (-1000000000) < inject_Z nsec)%Q. rewrite <- Zlt_Qlt. lia.
      - change (inject_Z nsec <= inject_Z 0)%Q. rewrite <- Zle_Qle. lia. }
    assert (HS0 : (S == 0 \/ S <= -1)%Q) by (apply inject_Z_le_m1; lia).
    assert (HN0 : (N == 0 \/ N <= -1)%Q) by (apply inject_Z_le_m1; lia).
    assert (Ha : ((1 + float64.eps) * S <= a <= (1 - float64.eps) * S)%Q)
      by (apply round_nonpos; destruct HS0; [left|right]; lra).
    assert (Hb : ((1 + float64.eps) * N <= b <= (1 - float64.eps) * N)%Q)
      by (apply round_nonpos; destruct HN0; [left|right]; lra).
    unfold float64.eps in *.
    assert (Hy0 : (y == 0 \/ y <= - (1 # 10000000000))%Q).
    { destruct HN0 as [Hz|Hz]; [left|right]; lra. }
    pose proof (round_nonpos y Hy0) as Hc. fold c in Hc. unfold float64.eps in Hc.
    assert (Hac : (a + c == 0 \/ a + c <= - (1 # 10000000000))%Q).
    { destruct HS0 as [Hz|Hz].
      - destruct Hy0 as [Hy0|Hy0]; [left|right]; lra.
      - right. destruct Hy0 as [Hy0|Hy0]; lra. }
    pose proof (round_nonpos (a + c) Hac) as Hf. fold f in Hf. unfold float64.eps in Hf.
    assert (Hnz : (S <= -1 \/ N <= -1)%Q).
    { destruct HS0 as [Hz|Hz]; [|now left]. destruct HN0 as [Hz'|Hz']; [|now right].
      exfalso. assert (Hdz : (inject_Z d == 0)%Q) by lra.
      unfold Qeq in Hdz. simpl in Hdz. lia. }
    split; [intros _; destruct Hnz; lra|]. split; [lia|].
    split; lra.
Qed.

Lemma Sub_range (t u : time.Time) :
  MinInt64 <= time.Sub t u <= MaxInt64 /\
  time.Sub t u = Z.max MinInt64 (Z.min MaxInt64 (time.t_ns t - time.t_ns u)).
Proof.
  unfold time.Sub, in_int64, MinInt64, MaxInt64.
  destruct (Z.leb_spec (-9223372036854775808) (time.t_ns t - time.t_ns u));
    destruct (Z.leb_spec (time.t_ns t - time.t_ns u) 9223372036854775807); simpl;
    try destruct (Z.ltb_spec (time.t_ns t - time.t_ns u) 0); lia.
Qed.


Example Rate_String_42s :
  Rate_String staticNow (mkRate 60 (time.Add staticNow (42 * time.Second)))
    = "error rate limit: 60 remaining calls; reset in 42s".
Proof. vm_compute. reflexivity. Qed.

Example Rate_String_passed :
  Rate_String (time.Add staticNow (3400 * 1000000)) (mkRate 60 staticNow)
    = "error rate limit: 60 remaining calls; reset in -3s".
Proof. vm_compute. reflexivity. Qed.

(** ** The calendar *)

Lemma div_rem_pos (a c : Z) :
  0 < c -> a = c * (a / c) + a mod c /\ 0 <= a mod c < c.
Proof.
  intros Hc. split.
  - apply Z.div_mod. lia.
  - apply Z.mod_pos_bound. exact Hc.
Qed.

Lemma sub_quarter (q : Z) : 0 <= q <= 4 -> q - q / 4 = Z.min q 3.
Proof.
  intros H.
  assert (Hc : q = 0 \/ q = 1 \/ q = 2 \/ q = 3 \/ q = 4) by lia.
  destruct Hc as [->|[->|[->|[->| ->]]]]; reflexivity.
Qed.

Lemma mod_zero_iff (a b k r : Z) :
  1 <= r <= b -> a = b * k + r -> (a mod b = 0 <-> r = b).
Proof.
  intros Hr Ha. destruct (Z.eq_dec r b) as [E|E].
  - split; [intros _; exact E|intros _].
    symmetry. apply (Z.mod_unique a b (k + 1) 0); lia.
  - assert (Hm : r = a mod b) by (apply (Z.mod_unique a b k r); lia).
    lia.
Qed.

Lemma absYearDay_spec d y yd :
  time.absYearDay d = (y, yd) ->
  time.daysSinceEpoch y + yd = d /\
  0 <= yd <= 364 + (if time.isLeap y then 1 else 0).
Proof.
  unfold time.absYearDay. rewrite !Z.shiftr_div_pow2 by lia.
  change (2 ^ 2) with 4.
  destruct (div_rem_pos d 146097 ltac:(lia)) as [E400 B400].
  set (n400 := d / 146097) in *. set (r400 := d mod 146097) in *.
  replace (d - 146097 * n400) with r400 by lia.
  destruct (div_rem_pos r400 36524 ltac:(lia)) as [E100 B100].
  set (q100 := r400 / 36524) in *. set (r100 := r400 mod 36524) in *.
  assert (Hq100 : 0 <= q100 <= 4) by lia.
  rewrite (sub_quarter q100 Hq100).
  set (n100 := Z.min q100 3).
  assert (Hn100 : 0 <= n100 <= 3 /\ (n100 = q100 \/ (q100 = 4 /\ n100 = 3)))
    by (unfold n100; lia).
  clearbody n100.
  set (d2 := r400 - 36524 * n100).
  assert (Hd2 : 0 <= d2 <= 36524 /\ (n100 < 3 -> d2 < 36524)) by (unfold d2; lia).
  destruct (div_rem_pos d2 1461 ltac:(lia)) as [E4 B4].
  set (n4 := d2 / 1461) in *. set (r4 := d2 mod 1461) in *.
  replace (d2 - 1461 * n4) with r4 by lia.
  assert (Hn4 : 0 <= n4 <= 24) by lia.
  assert (Hr4 : n4 = 24 -> d2 < 36524 -> r4 < 1460) by lia.
  destruct (div_rem_pos r4 365 ltac:(lia)) as [E1 B1].
  set (q1 := r4 / 365) in *. set (r1 := r4 mod 365) in *.
  assert (Hq1 : 0 <= q1 <= 4) by lia.
  rewrite (sub_quarter q1 Hq1).
  set (n1 := Z.min q1 3).
  assert (Hn1 : 0 <= n1 <= 3 /\ (n1 = q1 \/ (q1 = 4 /\ n1 = 3))) by (unfold n1; lia).
  clearbody n1.
  intros [= <- <-].
  assert (Hyd : 0 <= r4 - 365 * n1 <= 365 /\ (r4 < 1460 -> r4 - 365 * n1 <= 364)
                /\ (n1 < 3 -> r4 - 365 * n1 <= 364)) by lia.
  assert (Hsum : 146097 * n400 + 36524 * n100 + 1461 * n4 + 365 * n1
                 + (r4 - 365 * n1) = d) by (unfold d2 in *; lia).
  clearbody n400 r400 q100 r100 d2 n4 r4 q1 r1.
  clear E400 E100 E4 E1.
  split.
  - unfold time.daysSinceEpoch.
    replace (1 + 400 * n400 + 100 * n100 + 4 * n4 + n1 - 1)
      with (400 * n400 + (100 * n100 + 4 * n4 + n1)) by lia.
    set (y := 400 * n400 + (100 * n100 + 4 * n4 + n1)).
    assert (Ha : y / 400 = n400).
    { symmetry. apply (Z.div_unique y 400 n400 (100 * n100 + 4 * n4 + n1)); lia. }
    rewrite Ha.
    replace (y - 400 * n400) with (100 * n100 + (4 * n4 + n1)) by (unfold y; lia).
    assert (Hb : (100 * n100 + (4 * n4 + n1)) / 100 = n100).
    { symmetry. apply (Z.div_unique _ 100 n100 (4 * n4 + n1)); lia. }
    rewrite Hb.
    replace (100 * n100 + (4 * n4 + n1) - 100 * n100) with (4 * n4 + n1) by lia.
    assert (Hc : (4 * n4 + n1) / 4 = n4).
    { symmetry. apply (Z.div_unique _ 4 n4 n1); lia. }
    rewrite Hc. lia.
  - unfold time.isLeap.
    set (year := 1 + 400 * n400 + 100 * n100 + 4 * n4 + n1).
    assert (L4 : year mod 4 = 0 <-> n1 + 1 = 4).
    { apply (mod_zero_iff year 4 (100 * n400 + 25 * n100 + n4)); unfold year; lia. }
    assert (L100 : year mod 100 = 0 <-> 4 * n4 + n1 + 1 = 100).
    { apply (mod_zero_iff year 100 (4 * n400 + n100)); unfold year; lia. }
    assert (L400 : year mod 400 = 0 <-> 100 * n100 + 4 * n4 + n1 + 1 = 400).
    { apply (mod_zero_iff year 400 n400); unfold year; lia. }
    clearbody year.
    destruct (Z.eqb_spec (year mod 4) 0) as [X4|X4];
      destruct (Z.eqb_spec (year mod 100) 0) as [X100|X100];
      destruct (Z.eqb_spec (year mod 400) 0) as [X400|X400]; simpl; lia.
Qed.


(** ** Checks over a range of integers *)

Lemma Z_all_from_spec p count : forall start,
  Z_all_from p start count = true ->
  forall x, start <= x < start + Z.of_nat count -> p x = true.
Proof.
  induction count as [|k IH]; intros start H x Hx; [lia|].
  simpl in H. apply andb_true_iff in H. destruct H as [H0 H1].
  destruct (Z.eq_dec x start) as [->|Hne]; [exact H0|].
  apply (IH (start + 1) H1). lia.
Qed.

Lemma monthDay_check (leap : bool) :
  Z_all_from (fun yd =>
      let '(m, dd) := time.monthDay leap yd in
      (364 + (if leap then 1 else 0) <? yd) ||
      (1 <=? m) && (m <=? 12) && (1 <=? dd) && (dd <=? time.daysIn_leap m leap) &&
      (time.daysBefore (m - 1) + (if leap && (3 <=? m) then 1 else 0) + (dd - 1) =? yd))
    0 366 = true.
Proof. destruct leap; vm_compute; reflexivity. Qed.

Lemma monthDay_spec (leap : bool) yd m dd :
  0 <= yd <= 364 + (if leap then 1 else 0) ->
  time.monthDay leap yd = (m, dd) ->
  1 <= m <= 12 /\ 1 <= dd <= time.daysIn_leap m leap /\
  time.daysBefore (m - 1) + (if leap && (3 <=? m) then 1 else 0) + (dd - 1) = yd.
Proof.
  intros Hyd Hm.
  pose proof (Z_all_from_spec _ _ _ (monthDay_check leap) yd) as H.
  cbv beta in H. rewrite Hm in H.
  assert (Hin : 0 <= yd < 0 + Z.of_nat 366) by (destruct leap; lia).
  apply H in Hin. apply orb_true_iff in Hin. destruct Hin as [Hin|Hin].
  - apply Z.ltb_lt in Hin. lia.
  - rewrite !andb_true_iff, !Z.leb_le, Z.eqb_eq in Hin. lia.
Qed.

Lemma two_digits_check :
  Z_all_from (fun x =>
      match time.appendInt x 2 with
      | String a (String b EmptyString) =>
          is_digit a && is_digit b && (digit_val a * 10 + digit_val b =? x)
      | _ => false
      end) 0 100 = true.
Proof. vm_compute. reflexivity. Qed.

Lemma two_digits x :
  0 <= x <= 99 ->
  exists a b, time.appendInt x 2 = String a (String b "") /\
              is_digit a = true /\ is_digit b = true /\
              digit_val a * 10 + digit_val b = x.
Proof.
  intros Hx. pose proof (Z_all_from_spec _ _ _ two_digits_check x) as H.
  cbv beta in H.
  destruct (time.appendInt x 2) as [|a [|b [|]]];
    try (assert (false = true) by (apply H; lia); discriminate).
  assert (Hin : 0 <= x < 0 + Z.of_nat 100) by lia.
  apply H in Hin.
  rewrite !andb_true_iff, Z.eqb_eq in Hin. exists a, b. tauto.
Qed.

Lemma four_digits_check :
  Z_all_from (fun x =>
      match time.appendInt x 4 with
      | String a (String b (String c (String d EmptyString))) =>
          is_digit a && is_digit b && is_digit c && is_digit d &&
          (((digit_val a * 10 + digit_val b) * 10 + digit_val c) * 10 + digit_val d
           =? x)
      | _ => false
      end) 0 (Z.to_nat 10000) = true.
Proof. vm_compute. reflexivity. Qed.

Lemma four_digits x :
  0 <= x <= 9999 ->
  exists a b c d,
    time.appendInt x 4 = String a (String b (String c (String d ""))) /\
    is_digit a = true /\ is_digit b = true /\ is_digit c = true /\
    is_digit d = true /\
    ((digit_val a * 10 + digit_val b) * 10 + digit_val c) * 10 + digit_val d = x.
Proof.
  intros Hx. pose proof (Z_all_from_spec _ _ _ four_digits_check x) as H.
  cbv beta in H.
  destruct (time.appendInt x 4) as [|a [|b [|c [|d [|]]]]];
    try (assert (false = true) by (apply H; lia); discriminate).
  assert (Hin : 0 <= x < 0 + Z.of_nat (Z.to_nat 10000)) by lia.
  apply H in Hin.
  rewrite !andb_true_iff, Z.eqb_eq in Hin. exists a, b, c, d. tauto.
Qed.

(** ** Timestamp: encoding and decoding *)


Lemma substring_0_app (a b : string) :
  String.substring 0 (String.length a) (a +:+ b) = a.
Proof.
  induction a as [|c a IH]; simpl.
  - destruct b; reflexivity.
  - now rewrite IH.
Qed.

Lemma length_app (a b : string) :
  String.length (a +:+ b) = (String.length a + String.length b)%nat.
Proof. induction a as [|c a IH]; simpl; [reflexivity | now rewrite IH]. Qed.

Lemma slice_quoted (F : string) :
  slice (quote F) 1 (slen (quote F) - 1) = Returns F.
Proof.
  unfold slice, quote, slen. simpl String.length. rewrite length_app. simpl String.length.
  replace ((0 <=? 1) && _ && _) with true by (symmetry; bool_lia).
  f_equal.
  replace (Z.to_nat 1) with 1%nat by lia.
  replace (Z.to_nat _) with (String.length F) by lia.
  simpl. apply substring_0_app.
Qed.

(** The zone chunk that [Format_RFC3339] writes is read back. *)
Lemma getzone_Format (zone : Z) :
  zone mod 60 = 0 -> -90000 < zone < 90000 ->
  let Zs := if zone =? 0 then "Z"
            else (if Z.quot zone 60 <? 0 then "-" else "+") +:+
                 time.appendInt (Z.abs (Z.quot zone 60) / 60) 2 +:+ ":" +:+
                 time.appendInt (Z.abs (Z.quot zone 60) mod 60) 2 in
  time.getfrac Zs = (0, Zs) /\ time.getzone Zs = Some (zone, "").
Proof.
  intros Hz60 Hzr Zs. unfold Zs.
  destruct (Z.eqb_spec zone 0) as [Ez|Ez].
  - rewrite Ez. split; reflexivity.
  - set (z := Z.quot zone 60).
    assert (Hz : zone = 60 * z /\ -1500 < z < 1500 /\ z <> 0)
      by (unfold z; div_lia).
    destruct Hz as (Hz1 & Hz2 & Hz3).
    destruct (two_digits (Z.abs z / 60)) as (a1 & a2 & -> & Ha1 & Ha2 & Hav);
      [div_lia|].
    destruct (two_digits (Z.abs z mod 60)) as (b1 & b2 & -> & Hb1 & Hb2 & Hbv);
      [div_lia|].
    assert (Habs : (Z.abs z / 60 * 60 + Z.abs z mod 60) * 60 = Z.abs zone)
      by div_lia.
    assert (H24 : (24 <? Z.abs z / 60) || (60 <? Z.abs z mod 60) = false)
      by (rewrite orb_false_iff, !Z.ltb_ge; div_lia).
    destruct (Z.ltb_spec z 0) as [Hneg|Hpos]; simpl;
      rewrite ?Ha1, ?Ha2, ?Hb1, ?Hb2; simpl; rewrite Hav, Hbv, H24, Habs;
      (split; [reflexivity|]); do 2 f_equal; lia.
Qed.

#[local] Arguments time.getfrac : simpl never.
#[local] Arguments time.getzone : simpl never.

(** Reading back what [Format_RFC3339] writes gives the time truncated to
    whole seconds. *)
Lemma Parse_Format (t : time.Time) :
  0 <= time.Year t <= 9999 ->
  time.t_zone t mod 60 = 0 ->
  -90000 < time.t_zone t < 90000 ->
  time.Parse_RFC3339 (time.Format_RFC3339 t) = Some (time.Truncate t time.Second).
Proof.
  intros Hy Hz60 Hzr.
  unfold time.Year in Hy. unfold time.Format_RFC3339, time.absDate.
  set (abs := time.t_ns t / 1000000000 + time.t_zone t) in *.
  destruct (time.absYearDay (abs / 86400)) as [y yd] eqn:Ey. simpl in Hy.
  destruct (time.monthDay (time.isLeap y) yd) as [m dd] eqn:Em.
  destruct (absYearDay_spec _ _ _ Ey) as [Hd Hyd].
  destruct (monthDay_spec _ _ _ _ Hyd Em) as (Hm & Hdd & Hmd).
  set (secs := abs mod 86400).
  assert (Hsecs : 0 <= secs < 86400) by (unfold secs; div_lia).
  destruct (four_digits y Hy) as (y1 & y2 & y3 & y4 & -> & Hy1 & Hy2 & Hy3 & Hy4 & Hyv).
  destruct (two_digits m) as (m1 & m2 & -> & Hm1 & Hm2 & Hmv); [lia|].
  destruct (two_digits dd) as (d1 & d2 & -> & Hd1 & Hd2 & Hdv).
  { unfold time.daysIn_leap, time.daysBefore in Hdd.
    repeat case_match; lia. }
  destruct (two_digits (secs / 3600)) as (h1 & h2 & -> & Hh1 & Hh2 & Hhv);
    [div_lia|].
  destruct (two_digits (secs mod 3600 / 60)) as (i1 & i2 & -> & Hi1 & Hi2 & Hiv);
    [div_lia|].
  destruct (two_digits (secs mod 60)) as (s1 & s2 & -> & Hs1 & Hs2 & Hsv);
    [div_lia|].
  assert (Hfinal :
    time.Date_ns y m dd (secs / 3600) (secs mod 3600 / 60) (secs mod 60) 0
    - time.t_zone t * 1000000000
    = time.t_ns t - time.t_ns t mod 1000000000).
  { unfold time.Date_ns.
    assert (Hleap : (if time.isLeap y && (3 <=? m)
                     then time.daysSinceEpoch y + time.daysBefore (m - 1) + 1
                     else time.daysSinceEpoch y + time.daysBefore (m - 1)) + (dd - 1)
                    = abs / 86400).
    { destruct (time.isLeap y && (3 <=? m)); lia. }
    rewrite Hleap. unfold secs, abs. div_lia. }
  destruct (getzone_Format (time.t_zone t) Hz60 Hzr) as [HZ1 HZ2].
  match type of HZ1 with time.getfrac ?z = _ => set (Zs := z) in * end.
  clearbody Zs.
  unfold time.Parse_RFC3339.
  simpl. rewrite Hy1, Hy2, Hy3, Hy4. simpl.
  rewrite Hm1, Hm2. simpl. rewrite Hmv.
  replace ((m <=? 0) || (12 <? m)) with false by (symmetry; bool_lia).
  simpl. rewrite Hd1, Hd2. simpl. rewrite Hh1, Hh2. simpl. rewrite Hhv.
  replace (24 <=? secs / 3600) with false by (symmetry; rewrite Z.leb_gt; div_lia).
  simpl. rewrite Hi1, Hi2. simpl. rewrite Hiv.
  replace (60 <=? secs mod 3600 / 60) with false
    by (symmetry; rewrite Z.leb_gt; div_lia).
  simpl. rewrite Hs1, Hs2. simpl. rewrite Hsv.
  replace (60 <=? secs mod 60) with false by (symmetry; rewrite Z.leb_gt; div_lia).
  change ("" +:+ Zs) with Zs. rewrite HZ1. simpl. rewrite HZ2. simpl.
  rewrite Hdv, Hyv.
  unfold time.daysIn.
  replace ((dd <? 1) || (time.daysIn_leap m (time.isLeap y) <? dd)) with false
    by (symmetry; bool_lia).
  unfold time.Truncate, time.Second. simpl.
  rewrite Hfinal. reflexivity.
Qed.

(** The sub-second part of the time is not written. *)
Lemma Truncate_whole (t : time.Time) :
  time.t_ns t mod 1000000000 = 0 -> time.Truncate t time.Second = t.
Proof.
  intros H. unfold time.Truncate, time.Second. simpl. rewrite H.
  destruct t as [ns z]. simpl. f_equal. lia.
Qed.




(** * Further properties of the package *)

(** ** check *)

Lemma status_2xx_true (rc : Z) :
  200 <= rc <= 299 -> (200 <=? rc) && (rc <=? 299) = true.
Proof. intros H. apply andb_true_iff. rewrite !Z.leb_le. lia. Qed.

Lemma status_2xx_inv (rc : Z) :
  (200 <=? rc) && (rc <=? 299) = true -> 200 <= rc <= 299.
Proof. intros H. apply andb_true_iff in H. rewrite !Z.leb_le in H. exact H. Qed.

Lemma check_returns (api : Client) (now : time.Time) (resp : http.Response) :
  exists err resp' logs, check api now resp = Returns (err, resp', logs).
Proof.
  unfold check. destruct ((200 <=? _) && _); [eauto|].
  destruct (makeError_returns now resp) as (e & r' & -> & _). eauto.
Qed.


(** ** makeError *)

(** X2: when the body of the response cannot be read, or is not one JSON
    value, [makeError] leaves the response as it is and returns the error
    that points to it, with the status code of the response, an empty
    message and the rate parsed from the headers. *)
Theorem makeError_undecodable_body (now : time.Time) (r : http.Response) :
  http.body_err (http.Body_ r) <> None \/
  json.Valid (http.body_data (http.Body_ r)) = false ->
  makeError now r =
    Returns (mkError PtrToResponse (http.StatusCode r) "" (parseRate now r), r).
Proof.
  intros H. unfold makeError, http.ReadAll.
  destruct (http.body_err (http.Body_ r)) eqn:Eb; [reflexivity|].
  destruct H as [H|H]; [congruence|].
  rewrite (Unmarshal_Error_invalid _ _ H). reflexivity.
Qed.

Lemma makeError_undecodable_body_witness :
  makeError staticNow badRequest =
    Returns (mkError PtrToResponse 400 "" (parseRate staticNow badRequest), badRequest).
Proof.
  apply (makeError_undecodable_body staticNow badRequest). right. reflexivity.
Defined.

(** ** Do: what it returns *)

(** X3: when the exchange completes with a status outside 200..299, [Do]
    returns an [*Error] together with the response; the status code of the
    error is the status code the returned response holds, the rate of the
    error is the rate parsed from that response and is the new rate state of
    the client; the destination is untouched, nothing is logged and the body
    is closed once. *)
Theorem Do_failure_is_consistent {W V} `{Writer W} `{Decodable V}
    (api : Client) (now : time.Time) (ctx : Context) (req : http.Request)
    (resp : http.Response) (v : Dest W V) :
  client api ctx req = inr resp ->
  ~ (200 <= http.StatusCode resp <= 299) ->
  exists res e r',
    Do api now ctx req v = Returns res /\
    do_err res = Some (esi_Error e) /\
    do_response res = Some (makeResponse r') /\
    HTTPStatusCode e = http.StatusCode r' /\
    mu_Rate (do_api res) = Error_Rate e /\
    Error_Rate e = parseRate now r' /\
    do_dest res = v /\ do_log res = [] /\ do_closed res = 1%nat.
Proof.
  intros Hc Hs. unfold Do. rewrite Hc.
  destruct (check_failure api now resp Hs) as (e & r' & He & ->).
  destruct (makeError_returns now resp) as (e1 & r1 & He1 & Hst & Hr).
  rewrite He in He1. injection He1 as <- <-.
  eexists _, e, r'. split; [reflexivity|]. simpl. auto 10.
Qed.

Lemma Do_failure_is_consistent_witness :
  exists res e r',
    Do (W:=Buffer) (NewClient (serve badRequest)) staticNow background getRoot
       (DestValue (mkFoo "before")) = Returns res /\
    do_err res = Some (esi_Error e) /\
    do_response res = Some (makeResponse r') /\
    HTTPStatusCode e = http.StatusCode r' /\
    mu_Rate (do_api res) = Error_Rate e /\
    Error_Rate e = parseRate staticNow r' /\
    do_dest res = DestValue (mkFoo "before") /\ do_log res = [] /\
    do_closed res = 1%nat.
Proof.
  apply (Do_failure_is_consistent (W:=Buffer) (NewClient (serve badRequest))
           staticNow background getRoot badRequest (DestValue (mkFoo "before"))).
  - reflexivity.
  - simpl. lia.
Defined.

(** X4: a nil error from [Do] means that the exchange completed with a
    status in 200..299: the response returned is the one the transport gave,
    and the client, rate state included, is unchanged. *)
Theorem Do_nil_error_means_success {W V} `{Writer W} `{Decodable V}
    (api : Client) (now : time.Time) (ctx : Context) (req : http.Request)
    (v : Dest W V) (res : DoResult W V) :
  Do api now ctx req v = Returns res ->
  do_err res = None ->
  exists resp,
    client api ctx req = inr resp /\
    200 <= http.StatusCode resp <= 299 /\
    do_response res = Some (makeResponse resp) /\
    do_api res = api.
Proof.
  unfold Do, check. destruct (client api ctx req) as [err|resp].
  { intros [= <-]. discriminate. }
  destruct ((200 <=? _) && _) eqn:E.
  - apply status_2xx_inv in E. destruct v as [|w|x].
    + intros [= <-] _. eauto.
    + destruct (io_Copy w (http.Body_ resp)). intros [= <-] _. eauto.
    + destruct (json.Decode store (http.Body_ resp) x) as [[x' [err|]]|];
        [| |discriminate]; intros [= <-] _; eauto.
  - destruct (makeError now resp) as [[e r']|]; [|discriminate].
    intros [= <-]. discriminate.
Qed.

Lemma Do_nil_error_means_success_witness :
  exists resp,
    client (NewClient (serve someData)) background getRoot = inr resp /\
    200 <= http.StatusCode resp <= 299.
Proof.
  destruct (Do (W:=Buffer) (V:=foo) (NewClient (serve someData)) staticNow
              background getRoot DestNil) as [res|msg] eqn:E; [|discriminate].
  destruct (Do_nil_error_means_success (W:=Buffer) (V:=foo)
              (NewClient (serve someData)) staticNow background getRoot DestNil
              res E) as (resp & Hc & Hs & _).
  - injection E as <-. reflexivity.
  - exists resp. auto.
Defined.



(** ** Do: the destination on success *)

(** X6: with a nil destination and a status in 200..299, [Do] returns the
    response with a nil error whatever the body holds: the body is not read,
    and the client is unchanged. *)
Theorem Do_nil_destination_ignores_body {W V} `{Writer W} `{Decodable V}
    (api : Client) (now : time.Time) (ctx : Context) (req : http.Request)
    (resp : http.Response) :
  client api ctx req = inr resp ->
  200 <= http.StatusCode resp <= 299 ->
  exists logs,
    Do api now ctx req (DestNil (W:=W) (V:=V)) =
      Returns (mkDoResult api DestNil (Some (makeResponse resp)) None logs 1).
Proof.
  intros Hc Hs. unfold Do, check. rewrite Hc, (status_2xx_true _ Hs).
  eexists. reflexivity.
Qed.

Lemma Do_nil_destination_ignores_body_witness :
  exists logs,
    Do (W:=Buffer) (V:=foo) (NewClient (serve someData)) staticNow background
       getRoot DestNil =
      Returns (mkDoResult (NewClient (serve someData)) DestNil
                 (Some (makeResponse someData)) None logs 1).
Proof.
  apply (Do_nil_destination_ignores_body (W:=Buffer) (V:=foo)
           (NewClient (serve someData)) staticNow background getRoot someData).
  - reflexivity.
  - simpl. lia.
Defined.

Lemma append_empty_r (s : string) : s +:+ "" = s.
Proof.
  induction s as [|c s IH]; [reflexivity|].
  change (String c s +:+ "") with (String c (s +:+ "")). now rewrite IH.
Qed.

(** X7: with a [bytes.Buffer] as the destination and a status in 200..299,
    [Do] appends the bytes of the body to what the buffer holds and returns
    a nil error, also when reading the body ends in a failure. *)
Theorem Do_copies_body_into_buffer {V} `{Decodable V}
    (api : Client) (now : time.Time) (ctx : Context) (req : http.Request)
    (resp : http.Response) (b : Buffer) :
  client api ctx req = inr resp ->
  200 <= http.StatusCode resp <= 299 ->
  exists res,
    Do api now ctx req (DestWriter (V:=V) b) = Returns res /\
    do_err res = None /\
    do_dest res = DestWriter (mkBuffer (buf_bytes b +:+ http.body_data (http.Body_ resp))) /\
    do_api res = api.
Proof.
  intros Hc Hs. unfold Do, check. rewrite Hc, (status_2xx_true _ Hs).
  unfold io_Copy.
  destruct (http.body_data (http.Body_ resp)) as [|c data] eqn:Ed.
  - rewrite append_empty_r.
    destruct (http.body_err (http.Body_ resp)); simpl;
      eexists; repeat split; now destruct b.
  - unfold Write, Buffer_Writer.
    destruct (http.body_err (http.Body_ resp)); simpl; eexists; repeat split.
Qed.

Lemma Do_copies_body_into_buffer_witness :
  exists res,
    Do (V:=foo) (NewClient (serve someData)) staticNow background getRoot
       (DestWriter (mkBuffer "")) = Returns res /\
    do_err res = None /\
    do_dest res = DestWriter (mkBuffer "some data") /\
    do_api res = NewClient (serve someData).
Proof.
  apply (Do_copies_body_into_buffer (V:=foo) (NewClient (serve someData))
           staticNow background getRoot someData (mkBuffer "")).
  - reflexivity.
  - simpl. lia.
Defined.

Lemma parse_unfold (s : string) :
  json.parse s = json.scan_value (S (2 * String.length s + 1)) s.
Proof. unfold json.parse. f_equal. lia. Qed.

Lemma parse_blank (s : string) :
  json.skip_ws s = "" -> json.parse s = json.EndOfInput.
Proof. intros H. rewrite parse_unfold. simpl. rewrite H. reflexivity. Qed.

(** X8: a body of white space only counts as an empty body: for a status in
    200..299 and a destination that is decoded into, [Do] returns a nil
    error and leaves the destination as it was. *)
Theorem Do_blank_body_leaves_destination {W V} `{Writer W} `{Decodable V}
    (api : Client) (now : time.Time) (ctx : Context) (req : http.Request)
    (resp : http.Response) (x : V) :
  client api ctx req = inr resp ->
  200 <= http.StatusCode resp <= 299 ->
  json.skip_ws (http.body_data (http.Body_ resp)) = "" ->
  http.body_err (http.Body_ resp) = None ->
  exists res,
    Do api now ctx req (DestValue (W:=W) x) = Returns res /\
    do_err res = None /\ do_dest res = DestValue x.
Proof.
  intros Hc Hs Hb He. unfold Do, check. rewrite Hc, (status_2xx_true _ Hs).
  unfold json.Decode. rewrite (parse_blank _ Hb), He, Hb. simpl. eauto.
Qed.

Lemma Do_blank_body_leaves_destination_witness :
  exists res,
    Do (W:=Buffer) (NewClient (serve (respond 200 [] (String "010" "  "))))
       staticNow background getRoot (DestValue (mkFoo "before")) = Returns res /\
    do_err res = None /\ do_dest res = DestValue (mkFoo "before").
Proof.
  apply (Do_blank_body_leaves_destination (W:=Buffer)
           (NewClient (serve (respond 200 [] (String "010" "  ")))) staticNow
           background getRoot (respond 200 [] (String "010" "  ")) (mkFoo "before"));
    [reflexivity | simpl; lia | reflexivity | reflexivity].
Defined.

(** X9: for a status in 200..299 and a destination that is decoded into,
    a body that is not JSON makes [Do] return the syntax error of the
    decoder, and a body that ends inside its first value (and is not blank)
    makes it return [io.ErrUnexpectedEOF]; in both cases the destination is
    left as it was. *)
Theorem Do_returns_scan_failures {W V} `{Writer W} `{Decodable V}
    (api : Client) (now : time.Time) (ctx : Context) (req : http.Request)
    (resp : http.Response) (x : V) :
  client api ctx req = inr resp ->
  200 <= http.StatusCode resp <= 299 ->
  http.body_err (http.Body_ resp) = None ->
  (json.parse (http.body_data (http.Body_ resp)) = json.BadSyntax ->
   exists res,
     Do api now ctx req (DestValue (W:=W) x) = Returns res /\
     do_err res = Some json_SyntaxError /\ do_dest res = DestValue x) /\
  (json.parse (http.body_data (http.Body_ resp)) = json.EndOfInput ->
   json.skip_ws (http.body_data (http.Body_ resp)) <> "" ->
   exists res,
     Do api now ctx req (DestValue (W:=W) x) = Returns res /\
     do_err res = Some io_ErrUnexpectedEOF /\ do_dest res = DestValue x).
Proof.
  intros Hc Hs He. unfold Do, check. rewrite Hc, (status_2xx_true _ Hs).
  unfold json.Decode. rewrite He. split.
  - intros ->. simpl. eauto.
  - intros -> Hne. apply String.eqb_neq in Hne. rewrite Hne. simpl. eauto.
Qed.

Lemma Do_returns_scan_failures_witness :
  (exists res,
     Do (W:=Buffer) (NewClient (serve (respond 200 [] "invalid json"))) staticNow
        background getRoot (DestValue (mkFoo "before")) = Returns res /\
     do_err res = Some json_SyntaxError /\ do_dest res = DestValue (mkFoo "before")) /\
  (exists res,
     Do (W:=Buffer) (NewClient (serve (respond 200 [] "[1, 2"))) staticNow
        background getRoot (DestValue (mkFoo "before")) = Returns res /\
     do_err res = Some io_ErrUnexpectedEOF /\ do_dest res = DestValue (mkFoo "before")).
Proof.
  split.
  - apply (Do_returns_scan_failures (W:=Buffer)
             (NewClient (serve (respond 200 [] "invalid json"))) staticNow
             background getRoot (respond 200 [] "invalid json") (mkFoo "before"));
      [reflexivity | simpl; lia | reflexivity | reflexivity].
  - apply (Do_returns_scan_failures (W:=Buffer)
             (NewClient (serve (respond 200 [] "[1, 2"))) staticNow
             background getRoot (respond 200 [] "[1, 2") (mkFoo "before"));
      [reflexivity | simpl; lia | reflexivity | reflexivity | discriminate].
Defined.

(** ** Timestamp as the destination of Do *)

Lemma string_forallb_app (p : ascii -> bool) (a b : string) :
  string_forallb p (a +:+ b) = string_forallb p a && string_forallb p b.
Proof.
  induction a as [|c a IH]; [reflexivity|].
  change (String c a +:+ b) with (String c (a +:+ b)). simpl.
  now rewrite IH, andb_assoc.
Qed.

Lemma digit_plain (d : Z) : 0 <= d < 10 -> plain (byte_of_Z (48 + d)) = true.
Proof.
  intros H.
  assert (Hd : d = 0 \/ d = 1 \/ d = 2 \/ d = 3 \/ d = 4 \/ d = 5 \/ d = 6 \/
               d = 7 \/ d = 8 \/ d = 9) by lia.
  repeat (destruct Hd as [->|Hd]; [reflexivity|]). subst d. reflexivity.
Qed.

Lemma utoa_fuel_plain (fuel : nat) : forall n acc,
  0 <= n -> string_forallb plain acc = true ->
  string_forallb plain (strconv.utoa_fuel fuel n acc) = true.
Proof.
  induction fuel as [|f IH]; intros n acc Hn Hacc; simpl; [exact Hacc|].
  assert (Hd : plain (byte_of_Z (48 + n mod 10)) = true)
    by (apply digit_plain, Z.mod_pos_bound; lia).
  destruct (n <? 10).
  - simpl. now rewrite Hd, Hacc.
  - apply IH; [apply Z.div_pos; lia|]. simpl. now rewrite Hd, Hacc.
Qed.

Lemma zeros_plain (n : nat) : string_forallb plain (time.zeros n) = true.
Proof. induction n as [|n IH]; [reflexivity|]. simpl. exact IH. Qed.

Lemma appendInt_plain (x : Z) (w : nat) :
  string_forallb plain (time.appendInt x w) = true.
Proof.
  unfold time.appendInt, strconv.utoa. rewrite !string_forallb_app, zeros_plain.
  rewrite utoa_fuel_plain by (try reflexivity; lia).
  destruct (x <? 0); reflexivity.
Qed.

(** What [Format_RFC3339] writes needs no escaping in a JSON string. *)
Lemma Format_plain (t : time.Time) :
  string_forallb plain (time.Format_RFC3339 t) = true.
Proof.
  unfold time.Format_RFC3339.
  destruct (time.absDate _) as [year [month day]].
  rewrite !string_forallb_app, !appendInt_plain.
  destruct (time.t_zone t =? 0); [reflexivity|].
  rewrite !string_forallb_app, !appendInt_plain.
  destruct (_ <? 0); reflexivity.
Qed.

Lemma scan_string_plain (F rest : string) :
  string_forallb plain F = true ->
  json.scan_string json.InString (F +:+ String "034" rest) = json.Scanned F rest.
Proof.
  induction F as [|c F IH]; intros H; [reflexivity|].
  simpl in H. apply andb_true_iff in H. destruct H as [Hc HF].
  unfold plain in Hc. rewrite !andb_true_iff, !negb_true_iff in Hc.
  destruct Hc as [[Hq Hb] Hl].
  change (String c F +:+ String "034" rest) with (String c (F +:+ String "034" rest)).
  simpl. rewrite Hq, Hb, Hl, (IH HF). reflexivity.
Qed.

Lemma parse_quoted (F : string) :
  string_forallb plain F = true ->
  json.parse (quote F) = json.Scanned (json.Str F) "".
Proof.
  intros H. rewrite parse_unfold. unfold quote.
  simpl. rewrite (scan_string_plain F "" H). reflexivity.
Qed.

(** X10: [Do] decodes what [Timestamp.MarshalJSON] writes. For a response
    with a status in 200..299 whose body is the encoding of a timestamp (year
    in 0..9999 in its own zone, zone offset a whole number of minutes less
    than 25 hours from UTC) and a [*Timestamp] as the destination, [Do]
    returns a nil error and the destination holds that timestamp truncated to
    whole seconds. *)
Theorem Do_decodes_Timestamp {W} `{Writer W} (api : Client) (now : time.Time)
    (ctx : Context) (req : http.Request) (resp : http.Response)
    (t t0 : Timestamp) :
  client api ctx req = inr resp ->
  200 <= http.StatusCode resp <= 299 ->
  http.Body_ resp = http.mkBody (fst (Timestamp_MarshalJSON t)) None ->
  0 <= time.Year (Time t) <= 9999 ->
  time.t_zone (Time t) mod 60 = 0 ->
  -90000 < time.t_zone (Time t) < 90000 ->
  exists res,
    Do api now ctx req (DestValue (W:=W) t0) = Returns res /\
    do_err res = None /\
    do_dest res = DestValue (mkTimestamp (time.Truncate (Time t) time.Second)).
Proof.
  intros Hc Hs Hb Hy Hz Hr. unfold Do, check.
  rewrite Hc, (status_2xx_true _ Hs), Hb.
  unfold json.Decode, Timestamp_MarshalJSON. simpl fst. simpl http.body_data.
  change (String "034" (time.Format_RFC3339 (Time t) +:+ String "034" ""))
    with (quote (time.Format_RFC3339 (Time t))).
  rewrite (parse_quoted _ (Format_plain (Time t))).
  simpl. unfold store, Timestamp_Decodable. simpl json.raw_of.
  change (String "034" (time.Format_RFC3339 (Time t) +:+ String "034" ""))
    with (quote (time.Format_RFC3339 (Time t))).
  unfold Timestamp_UnmarshalJSON.
  rewrite slice_quoted, Parse_Format by assumption. simpl. eauto.
Qed.

Lemma Do_decodes_Timestamp_witness :
  exists res,
    Do (W:=Buffer)
       (NewClient (serve (respond 200 []
                            (fst (Timestamp_MarshalJSON (mkTimestamp staticNow))))))
       staticNow background getRoot (DestValue (mkTimestamp time.zero))
      = Returns res /\
    do_err res = None /\
    do_dest res =
      DestValue (mkTimestamp (time.Truncate staticNow time.Second)).
Proof.
  apply (Do_decodes_Timestamp (W:=Buffer)
           (NewClient (serve (respond 200 []
              (fst (Timestamp_MarshalJSON (mkTimestamp staticNow))))))
           staticNow background getRoot
           (respond 200 [] (fst (Timestamp_MarshalJSON (mkTimestamp staticNow))))
           (mkTimestamp staticNow) (mkTimestamp time.zero));
    [reflexivity | simpl; lia | reflexivity | vm_compute; split; discriminate
    | reflexivity | simpl; lia].
Defined.

(** X11: the panic of [Timestamp.UnmarshalJSON] on short input reaches the
    caller of [Do]: for a response with a status in 200..299 whose body is a
    single decimal digit (a complete JSON value) and a [*Timestamp] as the
    destination, [Do] panics instead of returning an error. *)
Theorem Do_Timestamp_digit_body_panics {W} `{Writer W} (api : Client)
    (now : time.Time) (ctx : Context) (req : http.Request) (resp : http.Response)
    (c : ascii) (t0 : Timestamp) :
  client api ctx req = inr resp ->
  200 <= http.StatusCode resp <= 299 ->
  http.Body_ resp = http.mkBody (String c "") None ->
  is_digit c = true ->
  Do api now ctx req (DestValue (W:=W) t0) = Panics "slice bounds out of range".
Proof.
  intros Hc Hs Hb Hd. unfold Do, check.
  rewrite Hc, (status_2xx_true _ Hs), Hb.
  destruct c as [[] [] [] [] [] [] [] []]; try discriminate; reflexivity.
Qed.

Lemma Do_Timestamp_digit_body_panics_witness :
  Do (W:=Buffer) (NewClient (serve (respond 200 [] "7"))) staticNow background
     getRoot (DestValue (mkTimestamp time.zero))
  = Panics "slice bounds out of range".
Proof.
  apply (Do_Timestamp_digit_body_panics (W:=Buffer)
           (NewClient (serve (respond 200 [] "7"))) staticNow background getRoot
           (respond 200 [] "7") "7"%char (mkTimestamp time.zero));
    [reflexivity | simpl; lia | reflexivity | reflexivity].
Defined.

(** X12: [Timestamp.UnmarshalJSON] drops the first and the last byte of its
    input without looking at them, whatever they are, and parses what lies
    between as RFC 3339: on success the timestamp is the parsed time, on
    failure it keeps its value and the parse error is returned. In
    particular input of two bytes or more never panics, and the bytes need
    not be quotes. *)
Theorem Timestamp_UnmarshalJSON_drops_ends (t : Timestamp) (c1 c2 : ascii)
    (s : string) :
  Timestamp_UnmarshalJSON t (String c1 (s +:+ String c2 "")) =
  match time.Parse_RFC3339 s with
  | Some parsed => Returns (mkTimestamp parsed, None)
  | None => Returns (t, Some time_ParseError)
  end.
Proof.
  unfold Timestamp_UnmarshalJSON, slice, slen.
  simpl String.length. rewrite length_app. simpl String.length.
  replace ((0 <=? 1) && _ && _) with true
    by (symmetry; rewrite !andb_true_iff, !Z.leb_le; lia).
  replace (Z.to_nat 1) with 1%nat by lia.
  replace (Z.to_nat _) with (String.length s) by lia.
  simpl String.substring. rewrite substring_0_app.
  destruct (time.Parse_RFC3339 s); reflexivity.
Qed.

(** ** parseRate and Rate.String *)

(** X13: [parseRate] ignores the error of [strconv.Atoi]: a remaining header
    that is a decimal number outside the range of [int] gives a [Remaining]
    at the end of the range, not zero. *)
Theorem parseRate_out_of_range_is_clamped (now : time.Time) (r : http.Response) :
  snd (strconv.Atoi (http.Header_Get (http.Header_ r) headerErrorRateRemaining))
    = Some strconv.ErrRange ->
  Remaining (parseRate now r) = MaxInt64 \/ Remaining (parseRate now r) = MinInt64.
Proof.
  rewrite parseRate_Remaining. cbv zeta.
  set (sR := http.Header_Get (http.Header_ r) headerErrorRateRemaining).
  unfold strconv.Atoi, strconv.ParseInt.
  destruct sR as [|c s]; [discriminate|]. simpl String.eqb.
  replace (String.eqb (String c s) "") with false by reflexivity.
  destruct (strconv.ParseUint _) as [un [[]|]]; simpl; try discriminate;
    repeat case_match; simpl; try discriminate; auto.
Qed.

Lemma parseRate_out_of_range_is_clamped_witness :
  Remaining (parseRate staticNow tooMany) = MaxInt64 \/
  Remaining (parseRate staticNow tooMany) = MinInt64.
Proof.
  apply (parseRate_out_of_range_is_clamped staticNow tooMany). reflexivity.
Defined.

Lemma rne_int (y : Q) (k : Z) : (y == inject_Z k)%Q -> float64.rne y = k.
Proof.
  destruct y as [n d]. unfold Qeq, float64.rne. simpl. intros H.
  assert (Hn : n = k * Zpos d) by lia.
  rewrite Hn, Z.div_mul, Z.mod_mul by lia.
  destruct (Z.ltb_spec (2 * 0) (Zpos d)); [reflexivity | lia].
Qed.

Lemma exponent_from_lt fuel : forall e (x : Q) k,
  (x < 2 ^ k)%Q -> e - Z.of_nat fuel < k -> float64.exponent_from fuel e x < k.
Proof.
  induction fuel as [|f IH]; intros e x k Hx He; simpl.
  - lia.
  - destruct (Qle_bool (2 ^ e) x) eqn:E.
    + apply Qle_bool_iff in E.
      apply Qpower_lt_compat_l_inv with (q := 2%Q); [|reflexivity].
      eapply Qle_lt_trans; eauto.
    + apply IH; [exact Hx | lia].
Qed.

Lemma two_53 : (inject_Z 9007199254740992 == 2 ^ 53)%Q.
Proof. reflexivity. Qed.

Lemma abs_lt_two_53 (x : Q) (k : Z) :
  (x == inject_Z k)%Q -> Z.abs k < 9007199254740992 -> (Qabs x < 2 ^ 53)%Q.
Proof.
  intros Hx Hk. rewrite Hx. rewrite <- two_53.
  destruct (Z_le_gt_dec 0 k).
  - rewrite Qabs_pos by (change 0%Q with (inject_Z 0); rewrite <- Zle_Qle; lia).
    rewrite <- Zlt_Qlt. lia.
  - rewrite Qabs_neg by (change 0%Q with (inject_Z 0); rewrite <- Zle_Qle; lia).
    rewrite <- inject_Z_opp, <- Zlt_Qlt. lia.
Qed.

Lemma unit_scale (e : Z) :
  e <= 52 ->
  (2 ^ e * (1 # 4503599627370496) * inject_Z (2 ^ (52 - e)) == 1)%Q.
Proof.
  intros He. rewrite Zpower_Qpower by lia.
  change (inject_Z 2) with 2%Q.
  assert (H52 : (2 ^ e * 2 ^ (52 - e) == 4503599627370496)%Q).
  { rewrite <- Qpower_plus by discriminate.
    replace (e + (52 - e)) with 52 by lia. reflexivity. }
  set (a := (2 ^ e)%Q) in *. set (b := (2 ^ (52 - e))%Q) in *.
  clearbody a b. lra.
Qed.

(** A multiple of the unit in the last place is not rounded. *)
Lemma rne_multiple (u x : Q) (k n : Z) :
  (u * inject_Z n == 1)%Q -> (0 < u)%Q -> (x == inject_Z k)%Q ->
  (inject_Z (float64.rne (x / u)) * u == inject_Z k)%Q.
Proof.
  intros Hu Hpos Hx.
  assert (Hinv : (/ u == inject_Z n)%Q).
  { apply (Qmult_inj_l _ _ u); [lra|].
    rewrite Qmult_inv_r by lra. symmetry. exact Hu. }
  assert (Hq : (x / u == inject_Z (k * n))%Q).
  { rewrite inject_Z_mult, Hx. unfold Qdiv. rewrite Hinv. reflexivity. }
  rewrite (rne_int _ _ Hq), inject_Z_mult.
  rewrite <- Qmult_assoc, (Qmult_comm (inject_Z n) u), Hu. ring.
Qed.

(** An integer below [2^53] in magnitude is a [float64]. *)
Lemma round_int_exact (x : Q) (k : Z) :
  (x == inject_Z k)%Q -> Z.abs k < 9007199254740992 ->
  (float64.round x == inject_Z k)%Q.
Proof.
  intros Hx Hk.
  assert (He : float64.exponent x < 53).
  { unfold float64.exponent.
    apply exponent_from_lt; [eapply abs_lt_two_53; eauto | lia]. }
  unfold float64.round, float64.ulp.
  set (e := float64.exponent x) in *. clearbody e.
  apply (rne_multiple _ x k (2 ^ (52 - e))); [| |exact Hx].
  - apply unit_scale. lia.
  - assert (0 < 2 ^ e)%Q by (apply Qpower_0_lt; reflexivity). lra.
Qed.

(** A whole number of seconds is converted without error. *)
Lemma Duration_Seconds_whole (S : Z) :
  Z.abs S < 9007199254740992 ->
  (Duration_Seconds (S * time.Second)%Z == inject_Z S)%Q.
Proof.
  intros HS. unfold Duration_Seconds, time.Second.
  rewrite Z.quot_mul, Z.rem_mul by lia.
  unfold float64.add, float64.div, float64.of_int.
  pose proof (round_int_exact (inject_Z S) S ltac:(reflexivity) HS) as Ha.
  pose proof (round_zero (inject_Z 0) ltac:(reflexivity)) as Hb.
  set (a := float64.round (inject_Z S)) in *.
  set (b := float64.round (inject_Z 0)) in *.
  assert (Hy : (b / inject_Z 1000000000 == 0)%Q).
  { rewrite Hb. reflexivity. }
  pose proof (round_zero _ Hy) as Hc.
  set (c := float64.round (b / inject_Z 1000000000)) in *.
  apply round_int_exact; [|exact HS]. rewrite Ha, Hc. ring.
Qed.

Lemma format_f0_int (f : Q) (k : Z) :
  (f == inject_Z k)%Q -> float64.format_f0 f = strconv.Itoa k.
Proof.
  intros Hf. unfold float64.format_f0, strconv.Itoa.
  rewrite (rne_int _ _ Hf).
  destruct (Z.ltb_spec k 0) as [Hlt|Hge].
  - destruct (Qle_bool 0 f) eqn:E.
    + apply Qle_bool_iff in E. rewrite Hf in E.
      change 0%Q with (inject_Z 0) in E. rewrite <- Zle_Qle in E. lia.
    + replace (Z.abs k) with (- k) by lia. reflexivity.
  - destruct (Qle_bool 0 f) eqn:E.
    + replace (Z.abs k) with k by lia. reflexivity.
    + assert (H : Qle_bool 0 f = true); [|congruence].
      apply Qle_bool_iff. rewrite Hf.
      change 0%Q with (inject_Z 0). rewrite <- Zle_Qle. lia.
Qed.

Lemma seconds_of_Sub (t u : time.Time) (S : Z) :
  time.Sub t u = S * time.Second -> Z.abs S < 9007199254740992.
Proof.
  intros H. destruct (Sub_range t u) as [Hr _]. rewrite H in Hr.
  unfold MinInt64, MaxInt64, time.Second in Hr. lia.
Qed.



Lemma Sub_Add (now : time.Time) (d : Z) :
  in_int64 d = true -> time.Sub (time.Add now d) now = d.
Proof.
  intros H. unfold time.Sub, time.Add. simpl.
  replace (time.t_ns now + d - time.t_ns now) with d by lia.
  now rewrite H.
Qed.



Lemma format_MinInt64 :
  float64.format_f0 (Duration_Seconds MinInt64) = "-9223372037".
Proof. vm_compute. reflexivity. Qed.

(** X16: a rate without a reset instant (the zero time, which [parseRate]
    leaves when the reset header is absent, not a number or zero) is
    rendered, at any instant more than [2^63] nanoseconds after the zero
    time (any date after the year 293), with the saturated duration:
    "reset in -9223372037s". *)
Theorem Rate_String_without_reset (now : time.Time) (r : Rate) :
  Reset r = time.zero -> MaxInt64 < time.t_ns now ->
  Rate_String now r =
    "error rate limit: " +:+ strconv.Itoa (Remaining r)
    +:+ " remaining calls; reset in -9223372037s".
Proof.
  intros Hz Hnow. unfold Rate_String. rewrite Hz.
  assert (Hd : time.Sub time.zero now = MinInt64).
  { destruct (Sub_range time.zero now) as [_ ->]. simpl.
    unfold MinInt64, MaxInt64 in *. lia. }
  rewrite Hd, format_MinInt64. reflexivity.
Qed.

Lemma Rate_String_without_reset_witness :
  Rate_String staticNow (parseRate staticNow badRequest) =
    "error rate limit: " +:+ strconv.Itoa (Remaining (parseRate staticNow badRequest))
    +:+ " remaining calls; reset in -9223372037s".
Proof.
  apply (Rate_String_without_reset staticNow (parseRate staticNow badRequest));
    [reflexivity | vm_compute; reflexivity].
Defined.

(** ** NewRequest: headers, method and body *)

Lemma Header_Get_Set_same (h : http.Header) (k v : string) :
  http.Header_Get (http.Header_Set h k v) k = v.
Proof.
  unfold http.Header_Get, http.Header_Set, http.Header in *.
  now rewrite lookup_insert_eq.
Qed.

Lemma Header_Get_Set_other (h : http.Header) (k k' v : string) :
  http.CanonicalHeaderKey k <> http.CanonicalHeaderKey k' ->
  http.Header_Get (http.Header_Set h k v) k' = http.Header_Get h k'.
Proof.
  intros Hne. unfold http.Header_Get, http.Header_Set, http.Header in *.
  now rewrite lookup_insert_ne.
Qed.

Lemma http_NewRequest_shape (method u : string) (body : option string)
    (req : http.Request) :
  http_NewRequest method u body = inr req ->
  http.Method req = (if String.eqb method "" then "GET" else method) /\
  http.validMethod (http.Method req) = true /\
  http.ReqHeader req = ∅ /\ http.ReqBody req = body.
Proof.
  unfold http_NewRequest.
  destruct (http.validMethod _) eqn:Ev; simpl; [|discriminate].
  destruct (url.Parse u); [|discriminate].
  intros [= <-]. simpl. auto.
Qed.

(** X17: a request built by [NewRequest] has the method it was given ([GET]
    for the empty method), which is a valid method; its [Accept] header is
    [application/json]; its [User-Agent] header is the user agent of the
    client (none when that is empty); with a body, the request body is the
    JSON encoding of the value followed by a newline and [Content-Type] is
    [application/json]; without one, there is no request body and no
    [Content-Type]. *)
Theorem NewRequest_request_shape {B} `{Marshaler B} (api : Client)
    (method P : string) (body : option B) (req : http.Request) :
  NewRequest api method P body = inr req ->
  http.Method req = (if String.eqb method "" then "GET" else method) /\
  http.validMethod (http.Method req) = true /\
  http.Header_Get (http.ReqHeader req) "Accept" = "application/json" /\
  http.Header_Get (http.ReqHeader req) "User-Agent" = UserAgent api /\
  match body with
  | Some b =>
      exists bytes, Marshal b = inr bytes /\
        http.ReqBody req = Some (bytes +:+ String "010" "") /\
        http.Header_Get (http.ReqHeader req) "Content-Type" = "application/json"
  | None =>
      http.ReqBody req = None /\
      http.Header_Get (http.ReqHeader req) "Content-Type" = ""
  end.
Proof.
  unfold NewRequest.
  destruct (url.URL_Parse (BaseURL api) P) as [u|]; [|discriminate].
  destruct body as [b|].
  - destruct (Marshal b) as [err|bytes] eqn:Em; [discriminate|].
    destruct (http_NewRequest _ _ _) as [err|req0] eqn:Er; [discriminate|].
    destruct (http_NewRequest_shape _ _ _ _ Er) as (Hm & Hv & Hh & Hb).
    intros [= <-]. simpl. rewrite Hh.
    split; [exact Hm|]. split; [exact Hv|].
    destruct (String.eqb_spec (UserAgent api) "") as [Hua|Hua]; simpl.
    + rewrite Hua. rewrite Header_Get_Set_same.
      rewrite !Header_Get_Set_other by (vm_compute; discriminate).
      rewrite Header_Get_Set_same. split; [reflexivity|].
      split; [vm_compute; reflexivity|]. eauto.
    + rewrite Header_Get_Set_same.
      rewrite !Header_Get_Set_other by (vm_compute; discriminate).
      rewrite !Header_Get_Set_same. eauto 6.
  - destruct (http_NewRequest _ _ _) as [err|req0] eqn:Er; [discriminate|].
    destruct (http_NewRequest_shape _ _ _ _ Er) as (Hm & Hv & Hh & Hb).
    intros [= <-]. simpl. rewrite Hh.
    split; [exact Hm|]. split; [exact Hv|].
    destruct (String.eqb_spec (UserAgent api) "") as [Hua|Hua]; simpl.
    + rewrite Hua. rewrite Header_Get_Set_same.
      rewrite !Header_Get_Set_other by (vm_compute; discriminate).
      repeat split; try assumption; vm_compute; reflexivity.
    + rewrite Header_Get_Set_same.
      rewrite !Header_Get_Set_other by (vm_compute; discriminate).
      rewrite Header_Get_Set_same.
      repeat split; try assumption; vm_compute; reflexivity.
Qed.

Lemma NewRequest_request_shape_witness :
  exists req,
    NewRequest (NewClient (serve okWithRate)) "" "v1/fleets/42/"
               (Some (mkFleetSettings true "some motd")) = inr req /\
    http.Method req = "GET" /\
    http.Header_Get (http.ReqHeader req) "Accept" = "application/json" /\
    http.Header_Get (http.ReqHeader req) "User-Agent" = DefaultUserAgent.
Proof.
  destruct (NewRequest (NewClient (serve okWithRate)) "" "v1/fleets/42/"
              (Some (mkFleetSettings true "some motd"))) as [err|req] eqn:E;
    [discriminate|].
  exists req. split; [reflexivity|].
  destruct (NewRequest_request_shape (NewClient (serve okWithRate)) ""
              "v1/fleets/42/" (Some (mkFleetSettings true "some motd")) req E)
    as (Hm & _ & Ha & Hu & _).
  exact (conj Hm (conj Ha Hu)).
Defined.

(** X18: the failures of [NewRequest], in the order they are detected: a
    URL that does not parse is reported first, whatever the body and the
    method; then a body that cannot be encoded, also when the method is
    invalid; an invalid method is reported only when the URL parses and the
    body, if there is one, encodes. *)
Theorem NewRequest_failures {B} `{Marshaler B} (api : Client) (method P : string)
    (body : option B) :
  (url.URL_Parse (BaseURL api) P = None ->
   NewRequest api method P body = inl url_ParseError) /\
  (forall u b err,
     url.URL_Parse (BaseURL api) P = Some u -> body = Some b ->
     Marshal b = inl err -> NewRequest api method P body = inl err) /\
  (forall u,
     url.URL_Parse (BaseURL api) P = Some u ->
     (forall b, body = Some b -> exists bytes, Marshal b = inr bytes) ->
     http.validMethod (if String.eqb method "" then "GET" else method) = false ->
     NewRequest api method P body = inl http_invalidMethod).
Proof.
  unfold NewRequest. repeat split.
  - now intros ->.
  - intros u b err -> -> ->. reflexivity.
  - intros u -> Hb Hm. unfold http_NewRequest. rewrite Hm. simpl.
    destruct body as [b|]; [|reflexivity].
    destruct (Hb b eq_refl) as [bytes ->]. reflexivity.
Qed.

Lemma collapse_rooted (r : string) :
  url.has_prefix "/" r = true ->
  url.has_prefix "/" (match r with
                      | String "/" (String "/" r') => String "/" r'
                      | _ => r
                      end) = true.
Proof.
  intros H. destruct r as [|c r0]; [exact H|].
  destruct c as [[] [] [] [] [] [] [] []]; try exact H.
  destruct r0 as [|c' r']; [exact H|].
  destruct c' as [[] [] [] [] [] [] [] []]; try exact H.
  destruct r'; reflexivity.
Qed.

(** A resolved path is empty (when both paths are) or begins with a slash. *)
Lemma resolvePath_rooted (base ref : string) :
  url.resolvePath base ref = "" /\ base = "" /\ ref = "" \/
  url.has_prefix "/" (url.resolvePath base ref) = true.
Proof.
  unfold url.resolvePath.
  set (full := match ref with
               | EmptyString => base
               | String "/" _ => ref
               | _ => match url.cut_last "/" base with
                      | Some (dir, _) => dir +:+ "/" +:+ ref
                      | None => ref
                      end
               end).
  destruct full as [|c f] eqn:Ef.
  - left. split; [reflexivity|].
    destruct ref as [|r0 ref'].
    + auto.
    + exfalso. unfold full in Ef.
      destruct r0 as [[] [] [] [] [] [] [] []]; try discriminate;
        destruct (url.cut_last "/" base) as [[dir ?]|]; try discriminate;
        destruct dir; discriminate.
  - right. cbv zeta.
    apply collapse_rooted.
    match goal with
    | |- context ["/" +:+ ?X] => change ("/" +:+ X) with (String "/" X)
    end.
    match goal with |- url.has_prefix "/" (String "/" ?X) = true =>
      destruct X; reflexivity
    end.
Qed.

Lemma ResolveReference_rooted (u ref : url.URL) :
  url.Path (url.ResolveReference u ref) = "" \/
  url.has_prefix "/" (url.Path (url.ResolveReference u ref)) = true.
Proof.
  unfold url.ResolveReference.
  destruct (_ || _).
  - simpl. destruct (resolvePath_rooted (url.Path ref) "") as [(-> & _) | ->]; auto.
  - destruct (negb _); simpl; [auto|].
    destruct (resolvePath_rooted (url.Path u) (url.Path ref)) as [(-> & _) | ->]; auto.
Qed.

(** X19: the URL that [NewRequest] resolves and hands on has a path that is
    empty or begins with a slash, whatever the base address and the
    reference are: dot segments are resolved below the root, and a relative
    reference never yields a relative path. *)
Theorem NewRequest_resolved_path_rooted {B} `{Marshaler B} (api : Client)
    (method P : string) (body : option B) (req : http.Request) :
  NewRequest api method P body = inr req ->
  exists u,
    url.URL_Parse (BaseURL api) P = Some u /\
    url.Parse (url.URL_String u) = Some (http.URL req) /\
    (url.Path u = "" \/ url.has_prefix "/" (url.Path u) = true).
Proof.
  intros Hreq.
  destruct (NewRequest_hands_on_resolved api method P body req Hreq)
    as (u & Hu & Hp).
  exists u. split; [exact Hu|]. split; [exact Hp|].
  unfold url.URL_Parse in Hu.
  destruct (url.Parse P) as [ref|]; [|discriminate].
  simpl in Hu. injection Hu as <-. apply ResolveReference_rooted.
Qed.

Lemma NewRequest_resolved_path_rooted_witness :
  exists req u,
    NewRequest (B:=FleetSettings) (NewClient (serve okWithRate)) "GET"
               "v1/../../fleets/42/" None = inr req /\
    url.URL_Parse (BaseURL (NewClient (serve okWithRate))) "v1/../../fleets/42/"
      = Some u /\
    (url.Path u = "" \/ url.has_prefix "/" (url.Path u) = true).
Proof.
  destruct (NewRequest (B:=FleetSettings) (NewClient (serve okWithRate)) "GET"
              "v1/../../fleets/42/" None) as [err|req] eqn:E; [discriminate|].
  destruct (NewRequest_resolved_path_rooted (B:=FleetSettings)
              (NewClient (serve okWithRate)) "GET" "v1/../../fleets/42/" None
              req E) as (u & Hu & _ & Hr).
  exists req, u. auto.
Defined.

(** ** Endpoint methods *)

Lemma Decode_returns {T} (st : json.value -> T -> option error -> json.dres T)
    (body : http.Body) (t : T) :
  (forall v t sv, no_panic (st v t sv)) ->
  exists t' err, json.Decode st body t = Returns (t', err).
Proof.
  intros Hs. unfold json.Decode.
  destruct (json.parse (http.body_data body)) as [v rest| |].
  - destruct rest, (json.is_composite v), (http.body_err body);
      eauto using finish_returns.
  - eauto.
  - destruct (http.body_err body); [eauto|]. destruct (String.eqb _ ""); eauto.
Qed.

Lemma store_WingIDBody_field_no_panic k v x sv :
  no_panic (store_WingIDBody_field k v x sv).
Proof.
  unfold store_WingIDBody_field. destruct (json.find_field _ _); simpl; auto.
  apply dres_bind_no_panic; [apply store_int_no_panic | simpl; auto].
Qed.

(** X20: [CreateWing] always returns (decoding its answer cannot panic); the
    wing it returns is -1 whenever it returns an error; and it returns no
    response only together with an error, the client being unchanged then. *)
Theorem CreateWing_reports_failure (api : Client) (now : time.Time)
    (ctx : Context) (fid : Z) :
  exists c,
    CreateWing api now ctx fid = Returns c /\
    (c_err c <> None -> c_value c = -1) /\
    (c_response c = None -> c_err c <> None /\ c_api c = api).
Proof.
  unfold CreateWing.
  destruct (NewRequest _ _ _ _) as [err|req].
  { eexists. split; [reflexivity|]. simpl. split; [reflexivity|].
    intros _. split; [discriminate | reflexivity]. }
  unfold Do. destruct (client api ctx req) as [err|resp].
  { eexists. split; [reflexivity|]. simpl. split; [reflexivity|].
    intros _. split; [discriminate | reflexivity]. }
  destruct (check_returns api now resp) as (e & resp' & logs & ->).
  destruct e as [e|].
  { eexists. split; [reflexivity|]. simpl. split; [reflexivity|]. discriminate. }
  destruct (Decode_returns store (http.Body_ resp') (mkWingIDBody 0))
    as (x' & err & ->).
  { apply store_struct_no_panic, store_WingIDBody_field_no_panic. }
  destruct err as [err|].
  - destruct err; eexists; (split; [reflexivity|]); simpl;
      (split; [try reflexivity; intros Hn; now destruct Hn | discriminate]).
  - eexists. split; [reflexivity|]. simpl.
    split; [intros Hn; now destruct Hn | discriminate].
Qed.

(** X21: when the server answers [CreateWing] with a status in 200..299 and
    an empty body, [CreateWing] returns the wing 0 and a nil error: the
    missing answer is not told apart from a wing numbered 0. *)
Theorem CreateWing_empty_body_gives_zero (api : Client) (now : time.Time)
    (ctx : Context) (fid : Z) (req : http.Request) (resp : http.Response) :
  NewRequest (B:=FleetSettings) api "PUT"
    ("v1/fleets/" +:+ strconv.Itoa fid +:+ "/wings/") None = inr req ->
  client api ctx req = inr resp ->
  200 <= http.StatusCode resp <= 299 ->
  http.Body_ resp = http.mkBody "" None ->
  exists c, CreateWing api now ctx fid = Returns c /\
            c_value c = 0 /\ c_err c = None /\
            c_response c = Some (makeResponse resp).
Proof.
  intros Hreq Hc Hs Hb. unfold CreateWing. rewrite Hreq.
  unfold Do, check. rewrite Hc, (status_2xx_true _ Hs), Hb.
  eexists. split; [reflexivity|]. simpl. auto.
Qed.

Lemma CreateWing_empty_body_gives_zero_witness :
  exists c, CreateWing (NewClient (serve (respond 200 [] ""))) staticNow
              background 42 = Returns c /\
            c_value c = 0 /\ c_err c = None /\
            c_response c = Some (makeResponse (respond 200 [] "")).
Proof.
  destruct (NewRequest (B:=FleetSettings) (NewClient (serve (respond 200 [] "")))
              "PUT" ("v1/fleets/" +:+ strconv.Itoa 42 +:+ "/wings/") None)
    as [err|req] eqn:E; [discriminate|].
  apply (CreateWing_empty_body_gives_zero (NewClient (serve (respond 200 [] "")))
           staticNow background 42 req (respond 200 [] "") E);
    [reflexivity | simpl; lia | reflexivity].
Defined.

(** X22: [RenameWing] does not use the fleet it is given: the path of its
    request is built from the wing alone, so calls that differ only in the
    fleet behave alike. Renaming wing 2 of fleet 1 requests
    [/v1/fleets/2/wings/2/], where [RenameSquad] for squad 2 of fleet 1
    requests [/v1/fleets/1/squads/2/]. *)
Theorem RenameWing_ignores_fleet (api : Client) (now : time.Time) (ctx : Context)
    (wid : Z) (name : string) :
  (forall fid fid',
     RenameWing api now ctx fid wid name = RenameWing api now ctx fid' wid name) /\
  requested_path (RenameWing (NewClient noContent) staticNow background 1 2 name)
    = Some "/v1/fleets/2/wings/2/" /\
  requested_path (RenameSquad (NewClient noContent) staticNow background 1 2 name)
    = Some "/v1/fleets/1/squads/2/".
Proof.
  split; [reflexivity|]. split; vm_compute; reflexivity.
Qed.

Lemma Do_nil_returns {W V} `{Writer W} `{Decodable V}
    (api : Client) (now : time.Time) (ctx : Context) (req : http.Request) :
  exists res,
    Do api now ctx req (DestNil (W:=W) (V:=V)) = Returns res /\
    (do_err res = None ->
     exists resp, do_response res = Some (makeResponse resp) /\
                  200 <= http.StatusCode resp <= 299 /\ do_api res = api).
Proof.
  unfold Do, check. destruct (client api ctx req) as [err|resp].
  { eexists. split; [reflexivity|]. discriminate. }
  destruct ((200 <=? _) && _) eqn:E.
  - apply status_2xx_inv in E. eexists. split; [reflexivity|]. simpl. eauto.
  - destruct (makeError_returns now resp) as (e & r' & -> & _).
    eexists. split; [reflexivity|]. discriminate.
Qed.

(** X23: [Kick] and [RenameSquad] always return, and a nil error from them
    means that the server answered with a status in 200..299: the response
    is returned and the client, rate state included, is unchanged. *)
Theorem Kick_and_RenameSquad_return (api : Client) (now : time.Time)
    (ctx : Context) (fid id : Z) (name : string) :
  let ok (c : Called unit) :=
    c_err c = None ->
    exists resp, c_response c = Some (makeResponse resp) /\
                 200 <= http.StatusCode resp <= 299 /\ c_api c = api in
  (exists c, Kick api now ctx fid id = Returns c /\ ok c) /\
  (exists c, RenameSquad api now ctx fid id name = Returns c /\ ok c).
Proof.
  intros ok. unfold ok, Kick, RenameSquad. split.
  - destruct (NewRequest _ _ _ _) as [err|req].
    { eexists. split; [reflexivity|]. discriminate. }
    destruct (Do_nil_returns (W:=Buffer) (V:=foo) api now ctx req)
      as (res & -> & Hres).
    eexists. split; [reflexivity|]. exact Hres.
  - destruct (NewRequest _ _ _ _) as [err|req].
    { eexists. split; [reflexivity|]. discriminate. }
    destruct (Do_nil_returns (W:=Buffer) (V:=foo) api now ctx req)
      as (res & -> & Hres).
    eexists. split; [reflexivity|]. exact Hres.
Qed.
